(** * CueSubmit job submission: command construction and job assembly

    A shallow embedding of [cuesubmit/Submission.py]: the flag formatter,
    the dynamic and the named-engine command builders, the layer
    assembler and the job assembler, with the properties of the
    specification stated over them.

    Conventions.
    - Python [str] is [string]; a character is a code point below 256,
      and the classes [\w] and [\d] of [re] and [str.lower] are those of
      Python on these code points.
    - A Python [float] is a binary64 float, [PrimFloat.float].
    - A value stored in a layer's [cmd] dictionary is a [PyVal].
    - A function that can raise returns a [result]. *)

From Stdlib Require Import String Ascii List Bool ZArith Lia.
From Stdlib Require Import DecimalString.
From Stdlib Require PrimFloat SpecFloat FloatOps.
Import ListNotations.
Local Open Scope string_scope.
Local Open Scope list_scope.

(** String concatenation, kept apart from list concatenation [++]. *)
Infix "+:+" := String.append (at level 60, right associativity).

(** ** Python values and exceptions *)

Inductive PyVal : Type :=
| PyNone
| PyBool (b : bool)
| PyInt (z : Z)
| PyStr (s : string).

Inductive exn : Type :=
| ValueError (msg : string)
| KeyError (key : string)
| TypeError (msg : string)
| AttributeError (msg : string)
| OverflowError (msg : string).

Inductive result (A : Type) : Type :=
| Ok (a : A)
| Raise (e : exn).

Arguments Ok {A} a.
Arguments Raise {A} e.

Definition bind {A B : Type} (m : result A) (k : A -> result B) : result B :=
  match m with
  | Ok a => k a
  | Raise e => Raise e
  end.

Notation "x <- m ;; k" := (bind m (fun x => k))
  (at level 61, m at next level, right associativity).

(** Truth value of an object, as [if v:] and [not v] test it. *)
Definition truthy (v : PyVal) : bool :=
  match v with
  | PyNone => false
  | PyBool b => b
  | PyInt z => negb (Z.eqb z 0)
  | PyStr s => negb (String.eqb s EmptyString)
  end.

(** [str(v)], which is also what an f-string field [{v}] prints. *)
Definition py_str (v : PyVal) : string :=
  match v with
  | PyNone => "None"
  | PyBool true => "True"
  | PyBool false => "False"
  | PyInt z => NilZero.string_of_int (Z.to_int z)
  | PyStr s => s
  end.

(** [v in ('', None)]: equality with the empty string or with [None]. *)
Definition in_empty_or_none (v : PyVal) : bool :=
  match v with
  | PyNone => true
  | PyStr s => String.eqb s EmptyString
  | _ => false
  end.

(** [a == b]; a boolean compares as the integer it is. *)
Definition PyVal_eqb (a b : PyVal) : bool :=
  match a, b with
  | PyNone, PyNone => true
  | PyBool x, PyBool y => Bool.eqb x y
  | PyBool x, PyInt y => Z.eqb (Z.b2z x) y
  | PyInt x, PyBool y => Z.eqb x (Z.b2z y)
  | PyInt x, PyInt y => Z.eqb x y
  | PyStr x, PyStr y => String.eqb x y
  | _, _ => false
  end.

(** ** The regular expressions of the module *)

(** [\d]: the decimal digits; below 256 these are [0] to [9]. *)
Definition is_digit (c : ascii) : bool :=
  let n := nat_of_ascii c in (48 <=? n)%nat && (n <=? 57)%nat.

(** [\w]: the alphanumeric characters and the underscore. Below 256 these
    are the ASCII letters and digits, the underscore, the two ordinal
    indicators, the micro sign, the superscript digits, the three vulgar
    fractions and the accented letters (all of 192 to 255 but the
    multiplication and the division sign). *)
Definition is_word (c : ascii) : bool :=
  let n := nat_of_ascii c in
  is_digit c
  || ((65 <=? n)%nat && (n <=? 90)%nat)
  || ((97 <=? n)%nat && (n <=? 122)%nat)
  || (n =? 95)%nat
  || (n =? 170)%nat || (n =? 178)%nat || (n =? 179)%nat
  || (n =? 181)%nat || (n =? 185)%nat || (n =? 186)%nat
  || ((188 <=? n)%nat && (n <=? 190)%nat)
  || ((192 <=? n)%nat && (n <=? 214)%nat)
  || ((216 <=? n)%nat && (n <=? 246)%nat)
  || (248 <=? n)%nat.

Definition is_dash (c : ascii) : bool := Ascii.eqb c "-".

(** The longest prefix of [s] whose characters satisfy [p], and the rest:
    what a greedy [p+] consumes when the next atom cannot match [p]. *)
Fixpoint span (p : ascii -> bool) (s : string) : string * string :=
  match s with
  | EmptyString => (EmptyString, EmptyString)
  | String c t =>
      if p c then let (a, b) := span p t in (String c a, b)
      else (EmptyString, s)
  end.

Definition nonempty (s : string) : bool := negb (String.eqb s EmptyString).

(** [$] without [re.MULTILINE]: the end of the string, or just before a
    newline that ends the string. *)
Definition at_end (s : string) : bool :=
  String.eqb s EmptyString || String.eqb s (String "010" EmptyString).

(** [re.match(r"^-+\w+~$", flag)], as a truth value. *)
Definition isSoloFlag (flag : string) : bool :=
  let (dashes, r1) := span is_dash flag in
  let (word, r2) := span is_word r1 in
  nonempty dashes && nonempty word &&
  match r2 with
  | String "~" r3 => at_end r3
  | _ => false
  end.

(** [re.match(r"^-+\w+$", flag)], as a truth value. *)
Definition isFlag (flag : string) : bool :=
  let (dashes, r1) := span is_dash flag in
  let (word, r2) := span is_word r1 in
  nonempty dashes && nonempty word && at_end r2.

(** [re.match(r"^\d+-\d+$", frameRange)], as a truth value. *)
Definition isFrameRange (frameRange : string) : bool :=
  let (d1, r1) := span is_digit frameRange in
  nonempty d1 &&
  match r1 with
  | String "-" r2 =>
      let (d2, r3) := span is_digit r2 in
      nonempty d2 && at_end r3
  | _ => false
  end.

(** [s[:-1]]: all but the last character. *)
Fixpoint drop_last (s : string) : string :=
  match s with
  | EmptyString => EmptyString
  | String c EmptyString => EmptyString
  | String c t => String c (drop_last t)
  end.

(** The one-character string holding a double quote. *)
Definition dquote : string := String (ascii_of_nat 34) EmptyString.

(** ** Flag formatter *)

Definition formatValue (flag : string) (value : PyVal)
    (isPath isMandatory : bool) : PyVal :=
  let value :=
    if isPath && truthy value
    then PyStr (dquote +:+ py_str value +:+ dquote)
    else value in
  let value :=
    if isMandatory && in_empty_or_none value
    then PyStr ("!!missing value for " +:+ flag +:+ "!!")
    else value in
  value.

(** ** Dictionaries and layer descriptions *)

(** A key of a layer's [cmd] dictionary: a plain parameter name for the
    named engines, a [(flag, isPath, isMandatory)] tuple for the
    configured ones. *)
Inductive Key : Type :=
| KName (k : string)
| KFlag (flag : string) (isPath isMandatory : bool).

(** A dictionary in insertion order, as [items()] walks it. *)
Definition dict : Type := list (Key * PyVal).

Fixpoint dict_find (d : dict) (k : string) : option PyVal :=
  match d with
  | [] => None
  | (KName k', v) :: t => if String.eqb k' k then Some v else dict_find t k
  | (KFlag _ _ _, _) :: t => dict_find t k
  end.

(** [d.get(k, default)] *)
Definition dict_get (d : dict) (k : string) (default : PyVal) : PyVal :=
  match dict_find d k with
  | Some v => v
  | None => default
  end.

(** [d[k]] *)
Definition dict_index (d : dict) (k : string) : result PyVal :=
  match dict_find d k with
  | Some v => Ok v
  | None => Raise (KeyError k)
  end.

(** What the [cores] attribute holds: a float, or an integer, a boolean, a
    string or [None]. *)
Inductive CoresValue : Type :=
| CoresFloat (f : PrimFloat.float)
| CoresOther (v : PyVal).

(** [float(n)] for an integer [n]: the nearest double, ties to even; an
    integer that rounds beyond the largest double raises
    [OverflowError]. *)
Definition float_of_int (n : Z) : result PrimFloat.float :=
  let f :=
    FloatOps.SF2Prim
      (SpecFloat.binary_normalize FloatOps.prec FloatOps.emax n 0 false) in
  if PrimFloat.is_infinity f
  then Raise (OverflowError "int too large to convert to float")
  else Ok f.

Record LayerData : Type := mkLayerData {
  name : string;
  layerType : string;
  cmd : dict;
  layerRange : string;
  chunk : Z;
  cores : CoresValue;
  overrideCores : bool;
  services : list string;
  limits : list string;
  dependType : PyVal
}.

(** What a command builder returns: a joined string or an argument list. *)
Inductive Command : Type :=
| CmdStr (s : string)
| CmdList (args : list PyVal).

(** The values read from [cuesubmit.Constants]. [RENDER_CMDS] maps the key
    of a configured engine to its base command template. *)
Record ConstantsT : Type := mkConstants {
  RENDER_CMDS : list (string * string);
  MAYA_RENDER_CMD : string;
  NUKE_RENDER_CMD : string;
  BLENDER_RENDER_CMD : string;
  FRAME_TOKEN : string;
  FRAME_START_TOKEN : string;
  FRAME_END_TOKEN : string
}.

(** The values read from [cuesubmit.JobTypes.JobTypes]. *)
Record JobTypesT : Type := mkJobTypes {
  FROM_CONFIG_FILE : list string;
  MAYA : string;
  SHELL : string;
  NUKE : string;
  BLENDER : string
}.

Fixpoint assoc (l : list (string * string)) (k : string) : option string :=
  match l with
  | [] => None
  | (k', v) :: t => if String.eqb k' k then Some v else assoc t k
  end.

Fixpoint mem (k : string) (l : list string) : bool :=
  match l with
  | [] => false
  | k' :: t => String.eqb k k' || mem k t
  end.

(** ** [shlex.split], POSIX mode

    The token reader of the standard library with [posix=True],
    [whitespace_split=True], no comment characters and no punctuation
    characters, run until the input ends. *)

Inductive LexState : Type :=
| InSpace                (* ' ' *)
| InWord                 (* 'a' *)
| InQuote (q : ascii)    (* the opening quote character *)
| InEscape.              (* the escape character *)

Definition is_whitespace (c : ascii) : bool :=
  Ascii.eqb c " " || Ascii.eqb c "009" || Ascii.eqb c "013" || Ascii.eqb c "010".

Definition is_quote (c : ascii) : bool :=
  Ascii.eqb c "'" || Ascii.eqb c (ascii_of_nat 34).

Definition is_escape (c : ascii) : bool := Ascii.eqb c "\".

(** [escapedquotes] holds the double quote only. *)
Definition is_escapedquote (c : ascii) : bool := Ascii.eqb c (ascii_of_nat 34).

Definition snoc (s : string) (c : ascii) : string := s +:+ String c EmptyString.

(** [lex state escapedstate token quoted input]: the tokens still to come.
    [escapedstate] is the state an escape returns to; [token] is the text
    gathered so far and [quoted] tells whether a quote was seen in it. A
    token is handed out when [token] is not empty or [quoted] holds. *)
Fixpoint lex (state escapedstate : LexState) (token : string) (quoted : bool)
    (input : string) : result (list string) :=
  match input with
  | EmptyString =>
      match state with
      | InSpace | InWord =>
          if nonempty token || quoted then Ok [token] else Ok []
      | InQuote _ => Raise (ValueError "No closing quotation")
      | InEscape => Raise (ValueError "No escaped character")
      end
  | String c rest =>
      match state with
      | InSpace =>
          if is_whitespace c then
            if nonempty token || quoted
            then toks <- lex InSpace InSpace EmptyString false rest ;; Ok (token :: toks)
            else lex InSpace escapedstate token quoted rest
          else if is_escape c then lex InEscape InWord token quoted rest
          else if is_quote c then lex (InQuote c) escapedstate token quoted rest
          else lex InWord escapedstate (String c EmptyString) quoted rest
      | InQuote q =>
          if Ascii.eqb c q then lex InWord escapedstate token true rest
          else if is_escape c && is_escapedquote q
          then lex InEscape (InQuote q) token true rest
          else lex (InQuote q) escapedstate (snoc token c) true rest
      | InEscape =>
          let token :=
            match escapedstate with
            | InQuote q =>
                if negb (is_escape c) && negb (Ascii.eqb c q)
                then snoc token "\" else token
            | _ => token
            end in
          lex escapedstate escapedstate (snoc token c) quoted rest
      | InWord =>
          if is_whitespace c then
            if nonempty token || quoted
            then toks <- lex InSpace InSpace EmptyString false rest ;; Ok (token :: toks)
            else lex InSpace escapedstate token quoted rest
          else if is_quote c then lex (InQuote c) escapedstate token quoted rest
          else if is_escape c then lex InEscape InWord token quoted rest
          else lex InWord escapedstate (snoc token c) quoted rest
      end
  end.

(** [shlex.split(s)] *)
Definition shlex_split (s : string) : result (list string) :=
  lex InSpace InSpace EmptyString false s.

(** ** Command builders *)

Section Builders.

Variable Constants : ConstantsT.
Variable JobTypes : JobTypesT.

(** The tuple unpacking [(flag, isPath, isMandatory)] of a key. A plain
    string key unpacks only when it has exactly three characters, which
    then stand for the three fields. *)
Definition unpack_key (k : Key) : result (string * bool * bool) :=
  match k with
  | KFlag flag isPath isMandatory => Ok (flag, isPath, isMandatory)
  | KName (String a (String b (String c EmptyString))) =>
      Ok (String a EmptyString, true, true)
  | KName _ => Raise (ValueError "not enough values to unpack")
  end.

(** One pass of the loop body of [buildDynamicCmd]. *)
Definition dynamicStep (renderCommand : string) (item : Key * PyVal)
    : result string :=
  let (key, value) := item in
  match unpack_key key with
  | Raise e => Raise e
  | Ok (flag, isPath, isMandatory) =>
      if isSoloFlag flag then
        Ok (renderCommand +:+ " " +:+ drop_last flag)
      else
        let value := formatValue flag value isPath isMandatory in
        if isFlag flag && negb (in_empty_or_none value) then
          Ok (renderCommand +:+ " " +:+ flag +:+ " " +:+ py_str value)
        else if negb (in_empty_or_none value) then
          Ok (renderCommand +:+ " " +:+ py_str value)
        else Ok renderCommand
  end.

Fixpoint dynamicLoop (renderCommand : string) (items : dict) : result string :=
  match items with
  | [] => Ok renderCommand
  | item :: rest =>
      renderCommand <- dynamicStep renderCommand item ;;
      dynamicLoop renderCommand rest
  end.

Definition buildDynamicCmd (layerData : LayerData) : result string :=
  match assoc (RENDER_CMDS Constants) (layerType layerData) with
  | None => Raise (KeyError (layerType layerData))
  | Some renderCommand => dynamicLoop renderCommand (cmd layerData)
  end.

Definition buildMayaCmd (layerData : LayerData) (silent : bool)
    : result (list PyVal) :=
  let camera := dict_get (cmd layerData) "camera" PyNone in
  let mayaFile := dict_get (cmd layerData) "mayaFile" PyNone in
  if negb (truthy mayaFile) && negb silent then
    Raise (ValueError "No Maya File provided. Cannot submit job.")
  else
    let args := [PyStr (MAYA_RENDER_CMD Constants); PyStr "-r"; PyStr "file";
                 PyStr "-s"; PyStr (FRAME_START_TOKEN Constants);
                 PyStr "-e"; PyStr (FRAME_END_TOKEN Constants)] in
    let args := if truthy camera then args ++ [PyStr "-cam"; camera] else args in
    Ok (args ++ [mayaFile]).

Definition buildNukeCmd (layerData : LayerData) (silent : bool)
    : result (list PyVal) :=
  let writeNodes := dict_get (cmd layerData) "writeNodes" PyNone in
  let nukeFile := dict_get (cmd layerData) "nukeFile" PyNone in
  if negb (truthy nukeFile) && negb silent then
    Raise (ValueError "No Nuke file provided. Cannot submit job.")
  else
    let args := [PyStr (NUKE_RENDER_CMD Constants); PyStr "-F";
                 PyStr (FRAME_TOKEN Constants)] in
    let args := if truthy writeNodes then args ++ [PyStr "-X"; writeNodes] else args in
    Ok (args ++ [PyStr "-x"; nukeFile]).

(** The frame flags that close a Blender command. *)
Definition blenderFrameArgs (frameRange : string) : list PyVal :=
  if isFrameRange frameRange then
    [PyStr "-s"; PyStr (FRAME_START_TOKEN Constants);
     PyStr "-e"; PyStr (FRAME_END_TOKEN Constants); PyStr "-a"]
  else
    [PyStr "-f"; PyStr (FRAME_TOKEN Constants)].

(** The arguments of a Blender command before its frame flags. *)
Definition blenderBaseArgs (layerData : LayerData) : list PyVal :=
  let blenderFile := dict_get (cmd layerData) "blenderFile" PyNone in
  let blenderExecutable :=
    dict_get (cmd layerData) "blenderExecutable"
      (PyStr (BLENDER_RENDER_CMD Constants)) in
  let outputPath := dict_get (cmd layerData) "outputPath" PyNone in
  let outputFormat := dict_get (cmd layerData) "outputFormat" PyNone in
  let useCompositing := dict_get (cmd layerData) "useCompositing" (PyBool true) in
  let args := [blenderExecutable; PyStr "-b"; PyStr "-noaudio"; blenderFile] in
  let args := if truthy useCompositing then args ++ [PyStr "--use-compositing"] else args in
  let args := if truthy outputPath then args ++ [PyStr "-o"; outputPath] else args in
  let args := if truthy outputFormat then args ++ [PyStr "-F"; outputFormat] else args in
  args.

Definition buildBlenderCmd (layerData : LayerData) (silent : bool)
    : result (list PyVal) :=
  let blenderFile := dict_get (cmd layerData) "blenderFile" PyNone in
  let frameRange := layerRange layerData in
  if negb (truthy blenderFile) && negb silent then
    Raise (ValueError "No Blender file provided. Cannot submit job.")
  else
    Ok (blenderBaseArgs layerData ++ blenderFrameArgs frameRange).

(** The [commandTextBox] entry of a shell layer, split into tokens. *)
Definition buildShellCmd (layerData : LayerData) (silent : bool)
    : result (list PyVal) :=
  shell_cmd <- (if silent then Ok (dict_get (cmd layerData) "commandTextBox" PyNone)
                else dict_index (cmd layerData) "commandTextBox") ;;
  if truthy shell_cmd then
    match shell_cmd with
    | PyStr s => toks <- shlex_split s ;; Ok (map PyStr toks)
    | _ => Raise (AttributeError "object has no attribute 'read'")
    end
  else Ok [].

Definition buildLayerCommand (layerData : LayerData) (silent : bool)
    : result Command :=
  let t := layerType layerData in
  if mem t (FROM_CONFIG_FILE JobTypes) then
    s <- buildDynamicCmd layerData ;; Ok (CmdStr s)
  else if String.eqb t (MAYA JobTypes) then
    l <- buildMayaCmd layerData silent ;; Ok (CmdList l)
  else if String.eqb t (SHELL JobTypes) then
    l <- buildShellCmd layerData silent ;; Ok (CmdList l)
  else if String.eqb t (NUKE JobTypes) then
    l <- buildNukeCmd layerData silent ;; Ok (CmdList l)
  else if String.eqb t (BLENDER JobTypes) then
    l <- buildBlenderCmd layerData silent ;; Ok (CmdList l)
  else if silent then
    Ok (CmdStr ("Error: unrecognized layer type " +:+ t))
  else
    Raise (ValueError ("unrecognized layer type " +:+ t)).

End Builders.

(** ** Layer assembler *)

(** The two kinds of dependency of the outline library:
    [depend_all] records [LayerOnLayer], [depend_on] [FrameByFrame]. *)
Inductive DependKind : Type :=
| LayerOnLayer
| FrameByFrame.

(** The outline layer object, as far as this module sets it: the
    arguments of the [Shell] constructor, the service, the limits and the
    dependencies recorded on it, each with the layer it points to. *)
#[warnings="-register-all"]
Inductive Layer : Type := mkLayer {
  layer_name : string;
  layer_command : list PyVal;
  layer_chunk : Z;
  layer_cores : option CoresValue;
  layer_range : string;
  layer_threadable : PyVal;
  layer_service : option string;
  layer_limits : list string;
  layer_depends : list (DependKind * Layer)
}.

Definition set_service (layer : Layer) (service : string) : Layer :=
  mkLayer (layer_name layer) (layer_command layer) (layer_chunk layer)
    (layer_cores layer) (layer_range layer) (layer_threadable layer)
    (Some service) (layer_limits layer) (layer_depends layer).

Definition set_limits (layer : Layer) (limits : list string) : Layer :=
  mkLayer (layer_name layer) (layer_command layer) (layer_chunk layer)
    (layer_cores layer) (layer_range layer) (layer_threadable layer)
    (layer_service layer) limits (layer_depends layer).

Definition add_depend (layer : Layer) (kind : DependKind) (on_layer : Layer) : Layer :=
  mkLayer (layer_name layer) (layer_command layer) (layer_chunk layer)
    (layer_cores layer) (layer_range layer) (layer_threadable layer)
    (layer_service layer) (layer_limits layer)
    (layer_depends layer ++ [(kind, on_layer)]).

Definition depend_all (layer on_layer : Layer) : Layer :=
  add_depend layer LayerOnLayer on_layer.

Definition depend_on (layer on_layer : Layer) : Layer :=
  add_depend layer FrameByFrame on_layer.

Section Assembler.

Variable Constants : ConstantsT.
Variable JobTypes : JobTypesT.

(** The service registry behind [cuesubmit.Util]: the names
    [getServices()] lists and the lookup [getServiceOption(name, option)]. *)
Variable getServices : list string.
Variable getServiceOption : string -> string -> result PyVal.

(** [float] on a string: the float it spells, or the error raised. *)
Variable float_of_str : string -> result PrimFloat.float.

(** [float(value)] *)
Definition py_float (value : CoresValue) : result PrimFloat.float :=
  match value with
  | CoresFloat f => Ok f
  | CoresOther (PyInt n) => float_of_int n
  | CoresOther (PyBool b) => Ok (if b then PrimFloat.one else PrimFloat.zero)
  | CoresOther (PyStr s) => float_of_str s
  | CoresOther PyNone =>
      Raise (TypeError
               "float() argument must be a string or a real number, not 'NoneType'")
  end.

(** The threadable flag of a layer, the first statements of [buildLayer]:
    [float(cores) >= 2 or float(cores) <= 0] under [overrideCores], the
    comparisons being those of floats. *)
Definition resolveThreadable (layerData : LayerData) : result PyVal :=
  if overrideCores layerData then
    f <- py_float (cores layerData) ;;
    Ok (PyBool (PrimFloat.leb PrimFloat.two f || PrimFloat.leb f PrimFloat.zero))
  else
    match services layerData with
    | first :: _ =>
        if mem first getServices
        then getServiceOption first "threadable"
        else Ok (PyBool false)
    | [] => Ok (PyBool false)
    end.

(** [command if isinstance(command, list) else shlex.split(command)] *)
Definition commandTokens (command : Command) : result (list PyVal) :=
  match command with
  | CmdList args => Ok args
  | CmdStr s => toks <- shlex_split s ;; Ok (map PyStr toks)
  end.

(** [lastLayer] is [None] or a layer object, which counts as true. *)
Definition buildLayer (layerData : LayerData) (command : Command)
    (lastLayer : option Layer) : result Layer :=
  threadable <- resolveThreadable layerData ;;
  let cores := if overrideCores layerData then Some (cores layerData) else None in
  command_tokens <- commandTokens command ;;
  let layer :=
    mkLayer (name layerData) command_tokens (chunk layerData) cores
      (layerRange layerData) threadable None [] [] in
  let layer :=
    match services layerData with
    | first :: _ => set_service layer first
    | [] => layer
    end in
  let layer :=
    match limits layerData with
    | _ :: _ => set_limits layer (limits layerData)
    | [] => layer
    end in
  let layer :=
    match truthy (dependType layerData), lastLayer with
    | true, Some last =>
        if PyVal_eqb (dependType layerData) (PyStr "Layer")
        then depend_all layer last
        else depend_on layer last
    | _, _ => layer
    end in
  Ok layer.

(** ** Job assembler *)

(** The [jobData] dictionary; an absent key is [None]. *)
Record JobData : Type := mkJobData {
  job_name : option string;
  job_shot : option string;
  job_show : option string;
  job_username : option string;
  job_layers : option (list LayerData);
  job_facility : option string
}.

(** The outline object: the constructor's arguments, the layers added in
    order and the facility. *)
Record Outline : Type := mkOutline {
  ol_name : string;
  ol_shot : string;
  ol_show : string;
  ol_user : string;
  ol_layers : list Layer;
  ol_facility : option string
}.

Definition add_layer (ol : Outline) (layer : Layer) : Outline :=
  mkOutline (ol_name ol) (ol_shot ol) (ol_show ol) (ol_user ol)
    (ol_layers ol ++ [layer]) (ol_facility ol).

Definition set_facility (ol : Outline) (facility : string) : Outline :=
  mkOutline (ol_name ol) (ol_shot ol) (ol_show ol) (ol_user ol)
    (ol_layers ol) (Some facility).

(** [jobData[key]] *)
Definition job_index {A : Type} (key : string) (field : option A) : result A :=
  match field with
  | Some v => Ok v
  | None => Raise (KeyError key)
  end.

(** The loop of [submitJob] over the layers, carrying the outline and the
    last layer built. *)
Fixpoint assembleLayers (ol : Outline) (lastLayer : option Layer)
    (layers : list LayerData) : result Outline :=
  match layers with
  | [] => Ok ol
  | layerData :: rest =>
      command <- buildLayerCommand Constants JobTypes layerData false ;;
      layer <- buildLayer layerData command lastLayer ;;
      assembleLayers (add_layer ol layer) (Some layer) rest
  end.

(** Everything [submitJob] does before the launch. *)
Definition assembleJob (jobData : JobData) : result Outline :=
  name <- job_index "name" (job_name jobData) ;;
  shot <- job_index "shot" (job_shot jobData) ;;
  show <- job_index "show" (job_show jobData) ;;
  user <- job_index "username" (job_username jobData) ;;
  let ol := mkOutline name shot show user [] None in
  layers <- job_index "layers" (job_layers jobData) ;;
  ol <- assembleLayers ol None layers ;;
  match job_facility jobData with
  | Some facility => Ok (set_facility ol facility)
  | None => Ok ol
  end.

(** The submission interface [outline.cuerun.launch]: what it answers for
    an outline. Every call is written to the log of launches. *)
Variable Handle : Type.
Variable launch : Outline -> result Handle.

Definition Launches : Type := list Outline.

Definition submitJob (jobData : JobData) (log : Launches)
    : result Handle * Launches :=
  match assembleJob jobData with
  | Raise e => (Raise e, log)
  | Ok ol => (launch ol, log ++ [ol])
  end.

End Assembler.

(** ** Vocabulary of the statements *)

(** Every character of [s] satisfies [p]. *)
Fixpoint all_chars (p : ascii -> bool) (s : string) : bool :=
  match s with
  | EmptyString => true
  | String c t => p c && all_chars p t
  end.

(** The shape the solo pattern describes: one or more dashes, one or more
    word characters, a closing tilde. *)
Definition soloShaped (flag dashes word : string) : Prop :=
  flag = dashes +:+ word +:+ "~" /\
  dashes <> EmptyString /\ all_chars is_dash dashes = true /\
  word <> EmptyString /\ all_chars is_word word = true.


(** ** A sample configuration and sample layers *)

Definition sampleConstants : ConstantsT :=
  mkConstants [("Arnold", "kick")] "Render" "nuke" "blender"
    "#IFRAME#" "#FRAME_START#" "#FRAME_END#".

Definition sampleJobTypes : JobTypesT :=
  mkJobTypes ["Arnold"] "Maya" "Shell" "Nuke" "Blender".

Definition sampleLayer (type : string) (cmd : dict) (range : string) : LayerData :=
  mkLayerData "layer" type cmd range 1 (CoresOther (PyInt 0)) false [] [] PyNone.

(** The command line [ "my app" --flag "value with space" ] as typed. *)
Definition quotedCommandLine : string :=
  dquote +:+ "my app" +:+ dquote +:+ " --flag " +:+
  dquote +:+ "value with space" +:+ dquote.

(** A Maya layer with a camera and no scene file. *)
Definition mayaNoFile : LayerData :=
  sampleLayer "Maya" [(KName "camera", PyStr "persp")] "1-10".

(** A Blender layer over a frame range whose output path is the text [-f]. *)
Definition blenderDashF : LayerData :=
  sampleLayer "Blender"
    [(KName "blenderFile", PyStr "scene.blend"); (KName "outputPath", PyStr "-f")]
    "1-100".

Definition blenderScene (range : string) : LayerData :=
  sampleLayer "Blender" [(KName "blenderFile", PyStr "scene.blend")] range.

Definition shellQuoted : LayerData :=
  sampleLayer "Shell" [(KName "commandTextBox", PyStr quotedCommandLine)] "1".

(** The fixed flags a Blender command can carry before its frame flags. *)
Definition blenderFixedFlags : list PyVal :=
  [PyStr "-b"; PyStr "-noaudio"; PyStr "--use-compositing"; PyStr "-o"; PyStr "-F"].

(** The values a Blender layer supplies itself: executable, scene file,
    output path and output format. *)
Definition blenderLayerValues (Constants : ConstantsT) (layerData : LayerData)
    : list PyVal :=
  [dict_get (cmd layerData) "blenderExecutable" (PyStr (BLENDER_RENDER_CMD Constants));
   dict_get (cmd layerData) "blenderFile" PyNone;
   dict_get (cmd layerData) "outputPath" PyNone;
   dict_get (cmd layerData) "outputFormat" PyNone].

(** The dependencies a layer is to carry, given its [dependType] and the
    layer before it: none without a predecessor or with a false
    [dependType], else one, all-to-all for ["Layer"] and frame by frame
    otherwise. *)
Definition expectedEdges (dependType : PyVal) (predecessor : option Layer)
    : list (DependKind * Layer) :=
  match predecessor with
  | None => []
  | Some previous =>
      if truthy dependType
      then [(if PyVal_eqb dependType (PyStr "Layer")
             then LayerOnLayer else FrameByFrame, previous)]
      else []
  end.

(** [layers] were built from [descriptions] one after the other, each
    carrying the dependencies expected against the one built just before
    it, the first against [predecessor]. *)
Fixpoint chained (predecessor : option Layer) (descriptions : list LayerData)
    (layers : list Layer) : Prop :=
  match descriptions, layers with
  | [], [] => True
  | layerData :: descriptions', layer :: layers' =>
      layer_depends layer = expectedEdges (dependType layerData) predecessor /\
      chained (Some layer) descriptions' layers'
  | _, _ => False
  end.

(** The layer before position [i] of [layers]. *)
Definition predecessorAt (layers : list Layer) (i : nat) : option Layer :=
  match i with
  | O => None
  | S j => nth_error layers j
  end.

(** A sample registry with one threadable service. *)
Definition sampleServices : list string := ["maya"; "shell"].

Definition sampleServiceOption (service option : string) : result PyVal :=
  Ok (PyBool (String.eqb service "maya" && String.eqb option "threadable")).

(** A sample reading of strings as floats: the text of 2 minus a part
    too small for a double is 2, as [float] rounds it. *)
Definition sampleFloatOfStr (s : string) : result PrimFloat.float :=
  if String.eqb s "1.9999999999999999999" then Ok PrimFloat.two
  else if String.eqb s "1" then Ok PrimFloat.one
  else if String.eqb s "0" then Ok PrimFloat.zero
  else Raise (ValueError ("could not convert string to float: '" +:+ s +:+ "'")).

(** A layer that overrides the core count. *)
Definition coresLayer (cores : CoresValue) : LayerData :=
  mkLayerData "layer" "Shell" [] "1" 1 cores true ["maya"] [] PyNone.

(** A layer that leaves the cores to its services. *)
Definition serviceLayer (services : list string) : LayerData :=
  mkLayerData "layer" "Shell" [] "1" 1 (CoresOther (PyInt 1)) false services []
    PyNone.

Definition shellLayer (name command : string) (dependType : PyVal) : LayerData :=
  mkLayerData name "Shell" [(KName "commandTextBox", PyStr command)]
    "1-10" 1 (CoresOther (PyInt 0)) false ["shell"] [] dependType.

Definition sampleJob (layers : list LayerData) : JobData :=
  mkJobData (Some "job") (Some "shot01") (Some "show") (Some "artist")
    (Some layers) None.

(** Three layers, the second one depending on the first as a whole. *)
Definition threeLayers : list LayerData :=
  [shellLayer "one" "echo 1" PyNone;
   shellLayer "two" "echo 2" (PyStr "Layer");
   shellLayer "three" "echo 3" PyNone].

(** A submission interface that accepts every job. *)
Definition sampleLaunch (ol : Outline) : result nat :=
  Ok (List.length (ol_layers ol)).

(** A job whose second layer is a Maya layer without a scene file. *)
Definition mayaJob : JobData :=
  sampleJob [shellLayer "one" "echo 1" PyNone; mayaNoFile].

(** A job whose only layer has a type no builder knows. *)
Definition unknownTypeJob : JobData :=
  sampleJob [sampleLayer "Houdini" [] "1"].

(** The dependencies of the layers of an outline, each as its kind and
    the name of the layer it points to. *)
Definition dependencyNames (ol : Outline) : list (list (DependKind * string)) :=
  map (fun layer =>
         map (fun edge => (fst edge, layer_name (snd edge))) (layer_depends layer))
      (ol_layers ol).

(** The end of a token that [$] accepts: nothing, or one final newline. *)
Definition endOfToken (tail : string) : Prop :=
  tail = EmptyString \/ tail = String "010" EmptyString.

(** One or more dashes followed by one or more word characters. *)
Definition flagBody (dashes word : string) : Prop :=
  dashes <> EmptyString /\ all_chars is_dash dashes = true /\
  word <> EmptyString /\ all_chars is_word word = true.

(** One or more digits on each side of a dash. *)
Definition rangeBody (first last : string) : Prop :=
  first <> EmptyString /\ all_chars is_digit first = true /\
  last <> EmptyString /\ all_chars is_digit last = true.

(** A character that stands for itself between double quotes: neither the
    double quote nor the backslash. *)
Definition plain_in_quotes (c : ascii) : bool :=
  negb (Ascii.eqb c (ascii_of_nat 34)) && negb (is_escape c).

(** A character that stands for itself in a bare word: no blank, no
    quote, no backslash. *)
Definition plain_in_word (c : ascii) : bool :=
  negb (is_whitespace c) && negb (is_quote c) && negb (is_escape c).

(** Every key of the dictionary is a [(flag, isPath, isMandatory)] tuple. *)
Fixpoint flag_keys_only (d : dict) : bool :=
  match d with
  | [] => true
  | (KFlag _ _ _, _) :: t => flag_keys_only t
  | (KName _, _) :: _ => false
  end.

(** The layer carries what its description says: name, chunk and range
    as they are, the cores only under [overrideCores], the first service
    if there is one, and the limits. *)
Definition describedBy (layerData : LayerData) (layer : Layer) : Prop :=
  layer_name layer = name layerData /\
  layer_chunk layer = chunk layerData /\
  layer_range layer = layerRange layerData /\
  layer_cores layer =
    (if overrideCores layerData then Some (cores layerData) else None) /\
  layer_service layer = hd_error (services layerData) /\
  layer_limits layer = limits layerData.

(** A job dictionary with every key but, maybe, [facility]. *)
Definition fullJob (name shot show user : string) (layers : list LayerData)
    (facility : option string) : JobData :=
  mkJobData (Some name) (Some shot) (Some show) (Some user) (Some layers) facility.

(** The first of the keys [name], [shot], [show], [username] and [layers]
    that the job dictionary lacks. *)
Definition firstMissingKey (jobData : JobData) : option string :=
  match job_name jobData, job_shot jobData, job_show jobData,
        job_username jobData, job_layers jobData with
  | None, _, _, _, _ => Some "name"
  | _, None, _, _, _ => Some "shot"
  | _, _, None, _, _ => Some "show"
  | _, _, _, None, _ => Some "username"
  | _, _, _, _, None => Some "layers"
  | _, _, _, _, _ => None
  end.

(** ** The Blender scripts: [submit_job.py] and [blender_wrapper.py] *)

(** [s.lstrip(c)] and [s.rstrip(c)] for a single character [c]. *)
Fixpoint lstrip (c : ascii) (s : string) : string :=
  match s with
  | String x t => if Ascii.eqb x c then lstrip c t else s
  | EmptyString => EmptyString
  end.

Fixpoint rstrip (c : ascii) (s : string) : string :=
  match s with
  | String x t =>
      match rstrip c t with
      | EmptyString => if Ascii.eqb x c then EmptyString else String x EmptyString
      | t' => String x t'
      end
  | EmptyString => EmptyString
  end.

(** [s.strip(c)] *)
Definition strip (c : ascii) (s : string) : string := rstrip c (lstrip c s).

(** [s.lower()]: the capital letters, ASCII and accented, go to their
    small letters, 32 places up; every other character stays. *)
Definition lower_char (c : ascii) : ascii :=
  let n := nat_of_ascii c in
  if ((65 <=? n)%nat && (n <=? 90)%nat)
     || ((192 <=? n)%nat && (n <=? 214)%nat)
     || ((216 <=? n)%nat && (n <=? 222)%nat)
  then ascii_of_nat (n + 32) else c.

Fixpoint lower (s : string) : string :=
  match s with
  | String c t => String (lower_char c) (lower t)
  | EmptyString => EmptyString
  end.

(** [str(n)] for an integer. *)
Definition str_int (n : Z) : string := py_str (PyInt n).

(** [sep.join(words)] *)
Fixpoint join (sep : string) (words : list string) : string :=
  match words with
  | [] => EmptyString
  | [w] => w
  | w :: rest => w +:+ sep +:+ join sep rest
  end.

(** ["=" * 80] *)
Definition rule : string :=
  "================================================================================".

(** What a run of a script leaves behind: the argument of [sys.exit], the
    lines printed, and the calls made to the outside ([subprocess.call]
    for the wrapper, [outline.cuerun.launch] for the submission). *)
Record Run (Call : Type) : Type := mkRun {
  exit_code : Z;
  stdout : list string;
  calls : list Call
}.

Arguments mkRun {Call} exit_code stdout calls.
Arguments exit_code {Call} r.
Arguments stdout {Call} r.
Arguments calls {Call} r.

Section Wrapper.

(** [os.environ.get], [int] on a string (the integer, or the text of the
    [ValueError]), [os.path.exists], and [subprocess.call] (the return
    code, or the text of the exception it raises). *)
Variable environ : string -> option string.
Variable py_int : string -> Z + string.
Variable path_exists : string -> bool.
Variable subprocess_call : list string -> Z + string.

Definition environ_get (key default : string) : string :=
  match environ key with
  | Some v => v
  | None => default
  end.

(** The frames of the chunk, or the text of the [ValueError]. *)
Definition wrapperFrames : (Z * Z) + string :=
  match py_int (environ_get "CUE_IFRAME" "1") with
  | inr e => inr e
  | inl start_frame =>
      match py_int (environ_get "CUE_CHUNK" "1") with
      | inr e => inr e
      | inl chunk_size => inl (start_frame, chunk_size)
      end
  end.

(** The Blender command of the wrapper. *)
Definition wrapperCommand (blender_exe blend_file scene : string)
    (start_frame end_frame : Z) (use_compositing : bool) : list string :=
  let cmd := [blender_exe; "-b"; blend_file; "-S"; scene;
              "-s"; str_int start_frame; "-e"; str_int end_frame] in
  let cmd := if use_compositing then cmd ++ ["--use-compositing"] else cmd in
  cmd ++ ["-a"].

(** [main] of [blender_wrapper.py], for the argument vector [argv]. *)
Definition wrapperMain (argv : list string) : Run (list string) :=
  match wrapperFrames with
  | inr e => mkRun 1 ["Error parsing CUE_IFRAME or CUE_CHUNK: " +:+ e] []
  | inl (start_frame, chunk_size) =>
      let end_frame := (start_frame + chunk_size - 1)%Z in
      match argv with
      | _ :: blender_exe :: blend_file :: scene :: rest =>
          let use_compositing :=
            match rest with
            | flag :: _ => String.eqb (lower flag) "true"
            | [] => false
            end in
          let blend_file := strip "'" (strip (ascii_of_nat 34) blend_file) in
          if negb (path_exists blender_exe) then
            mkRun 1 ["Error: Blender executable not found: " +:+ blender_exe] []
          else if negb (path_exists blend_file) then
            mkRun 1 ["Error: Blend file not found: " +:+ blend_file] []
          else
            let cmd := wrapperCommand blender_exe blend_file scene
                         start_frame end_frame use_compositing in
            let banner :=
              [rule; "OpenCue Blender Wrapper"; rule;
               "Blender Executable: " +:+ blender_exe;
               "Blend File: " +:+ blend_file;
               "Scene: " +:+ scene;
               "Frame Range: " +:+ str_int start_frame +:+ " - " +:+ str_int end_frame;
               "Chunk Size: " +:+ str_int chunk_size;
               "Use Compositing: " +:+ py_str (PyBool use_compositing);
               rule;
               "Executing: " +:+ join " " cmd;
               rule] in
            match subprocess_call cmd with
            | inl ret =>
                let report :=
                  if Z.eqb ret 0 then
                    [rule;
                     "Successfully rendered frames " +:+ str_int start_frame
                       +:+ "-" +:+ str_int end_frame;
                     rule]
                  else
                    [rule;
                     "Blender exited with error code: " +:+ str_int ret;
                     rule] in
                mkRun ret (banner ++ report) [cmd]
            | inr e =>
                mkRun 1 (banner ++ [rule; "Failed to execute Blender: " +:+ e; rule])
                  [cmd]
            end
      | _ =>
          mkRun 1
            ["Usage: blender_wrapper.py <blender_exe> <blend_file> <scene> [use_compositing]"]
            []
      end
  end.

End Wrapper.

(** The parsed arguments of [submit_job.py]. *)
Record SubmitArgs : Type := mkSubmitArgs {
  arg_blend_file : string;
  arg_scene : string;
  arg_frame_range : string;
  arg_job_name : string;
  arg_show : string;
  arg_shot : string;
  arg_wrapper_script : string;
  arg_blender_exe : string;
  arg_chunk_size : Z;
  arg_cores : Z;
  arg_memory : Z;
  arg_max_cores : Z;
  arg_use_compositing : bool
}.

(** The render layer of the script: the arguments of the [Shell]
    constructor and the two arguments set afterwards. *)
Record RenderLayer : Type := mkRenderLayer {
  render_name : string;
  render_command : list string;
  render_chunk : Z;
  render_cores : Z;
  render_range : string;
  render_args : list (string * Z)
}.

(** The outline of the script. *)
Record RenderOutline : Type := mkRenderOutline {
  render_job : string;
  render_shot : string;
  render_show : string;
  render_user : string;
  render_maxcores : option Z;
  render_layers : list RenderLayer
}.

Section SubmitScript.

(** Whether the OpenCue libraries import (the text of the [ImportError]
    otherwise), [os.path.exists], [sys.executable], [getpass.getuser] and
    [outline.cuerun.launch] (done, or the text of the exception). *)
Variable import_error : option string.
Variable path_exists : string -> bool.
Variable sys_executable : string.
Variable getuser : string + string.
Variable launch : RenderOutline -> unit + string.

(** The places where Blender is looked for when no path is given. *)
Definition common_paths : list string :=
  ["C:\Program Files\Blender Foundation\Blender\blender.exe";
   "C:\blender\blender.exe";
   "blender"].

(** The first path that exists, kept over the paths after it. *)
Fixpoint first_existing (blender_exe : string) (paths : list string) : string :=
  match paths with
  | [] => blender_exe
  | path :: rest => if path_exists path then path else first_existing blender_exe rest
  end.

Definition chooseBlender (args : SubmitArgs) : string :=
  let blender_exe := arg_blender_exe args in
  if negb (String.eqb blender_exe EmptyString) then blender_exe
  else
    let blender_exe := first_existing blender_exe common_paths in
    if String.eqb blender_exe EmptyString then "blender" else blender_exe.

(** The command of the render layer. *)
Definition submitCommand (args : SubmitArgs) : list string :=
  [sys_executable;
   arg_wrapper_script args;
   chooseBlender args;
   dquote +:+ arg_blend_file args +:+ dquote;
   arg_scene args;
   if arg_use_compositing args then "true" else "false"].

Definition submitBanner (args : SubmitArgs) : list string :=
  [rule; "Creating OpenCue Job"; rule;
   "Job Name: " +:+ arg_job_name args;
   "Show: " +:+ arg_show args;
   "Shot: " +:+ arg_shot args;
   "Frame Range: " +:+ arg_frame_range args;
   "Chunk Size: " +:+ str_int (arg_chunk_size args);
   "Cores per Task: " +:+ str_int (arg_cores args);
   "Memory per Task: " +:+ str_int (arg_memory args) +:+ " MB";
   "Max Cores (Job): " +:+
     (if (0 <? arg_max_cores args)%Z then str_int (arg_max_cores args)
      else "Unlimited");
   rule].

Definition submitOutline (args : SubmitArgs) (user : string) : RenderOutline :=
  let maxcores :=
    if (0 <? arg_max_cores args)%Z then Some (arg_max_cores args) else None in
  let layer :=
    mkRenderLayer "render" (submitCommand args) (arg_chunk_size args)
      (arg_cores args) (arg_frame_range args)
      [("cores", arg_cores args); ("memory", arg_memory args)] in
  mkRenderOutline (arg_job_name args) (arg_shot args) (arg_show args) user
    maxcores [layer].

Definition submitFailure (e : string) : list string :=
  [rule; "Error submitting job: " +:+ e; rule].

(** [submit_job] of [submit_job.py], on the arguments that [main] has
    parsed: the code is the one it returns or gives to [sys.exit]. *)
Definition submit_job (args : SubmitArgs) : Run RenderOutline :=
  match import_error with
  | Some e =>
      mkRun 1
        ["Error: Failed to import OpenCue libraries: " +:+ e;
         "Please ensure pycue and pyoutline are installed in your Python environment"]
        []
  | None =>
      if negb (path_exists (arg_blend_file args)) then
        mkRun 1 ["Error: Blend file not found: " +:+ arg_blend_file args] []
      else if negb (path_exists (arg_wrapper_script args)) then
        mkRun 1 ["Error: Wrapper script not found: " +:+ arg_wrapper_script args] []
      else
        match getuser with
        | inr e => mkRun 1 (submitBanner args ++ submitFailure e) []
        | inl user =>
            let ol := submitOutline args user in
            match launch ol with
            | inr e =>
                mkRun 1
                  (submitBanner args ++ ["Submitting job to OpenCue..."]
                   ++ submitFailure e) [ol]
            | inl _ =>
                mkRun 0
                  (submitBanner args ++
                   ["Submitting job to OpenCue..."; rule;
                    "Successfully submitted job: " +:+ arg_job_name args; rule])
                  [ol]
            end
        end
  end.

End SubmitScript.

Definition first_char (s : string) : option ascii :=
  match s with
  | String c _ => Some c
  | EmptyString => None
  end.

Fixpoint last_char (s : string) : option ascii :=
  match s with
  | EmptyString => None
  | String c EmptyString => Some c
  | String _ t => last_char t
  end.

(** A path that does not begin or end with a quote character. *)
Definition unquotedEnds (path : string) : Prop :=
  (forall c : ascii, first_char path = Some c -> is_quote c = false) /\
  (forall c : ascii, last_char path = Some c -> is_quote c = false).

(** Sample surroundings for the scripts: a chunk of five frames from
    frame 11, every path there, Blender returning 0. *)
Definition sampleEnviron (key : string) : option string :=
  if String.eqb key "CUE_IFRAME" then Some "11"
  else if String.eqb key "CUE_CHUNK" then Some "5"
  else None.

Definition sampleInt (s : string) : Z + string :=
  if String.eqb s "11" then inl 11%Z
  else if String.eqb s "5" then inl 5%Z
  else if String.eqb s "1" then inl 1%Z
  else inr ("invalid literal for int() with base 10: '" +:+ s +:+ "'").

Definition sampleExists (path : string) : bool := true.

Definition sampleCall (cmd : list string) : Z + string := inl 0%Z.

Definition sampleArgs : SubmitArgs :=
  mkSubmitArgs "/shows/my show/scene.blend" "Scene" "1-100" "job" "show" "shot01"
    "/opt/blender_wrapper.py" "/usr/bin/blender" 5 4 4096 0 true.

Definition sampleRenderLaunch (ol : RenderOutline) : unit + string := inl tt.

(** ** Strings and patterns *)

Lemma append_nil_r (s : string) : s +:+ EmptyString = s.
Proof. induction s as [|c s IH]; simpl; [reflexivity | now rewrite IH]. Qed.

Lemma append_assoc (a b c : string) : (a +:+ b) +:+ c = a +:+ (b +:+ c).
Proof. induction a as [|x a IH]; simpl; [reflexivity | now rewrite IH]. Qed.

Lemma nonempty_true (s : string) : s <> EmptyString -> nonempty s = true.
Proof. destruct s; [congruence | reflexivity]. Qed.

Lemma nonempty_append_l (a b : string) :
  a <> EmptyString -> nonempty (a +:+ b) = true.
Proof. destruct a; [congruence | reflexivity]. Qed.

(** A run of characters of class [p] followed by a character outside [p]
    is exactly what [span] takes. *)
Lemma span_run (p : ascii -> bool) (s : string) (c : ascii) (rest : string) :
  all_chars p s = true -> p c = false ->
  span p (s +:+ String c rest) = (s, String c rest).
Proof.
  intros Hs Hc. induction s as [|x s IH]; simpl in *.
  - now rewrite Hc.
  - apply andb_true_iff in Hs as [Hx Hs]. rewrite Hx, (IH Hs). reflexivity.
Qed.

Lemma drop_last_snoc (s : string) (c : ascii) :
  drop_last (s +:+ String c EmptyString) = s.
Proof.
  induction s as [|x s IH]; simpl; [reflexivity |].
  rewrite IH. destruct s; reflexivity.
Qed.

Lemma dash_not_word (c : ascii) : is_dash c = true -> is_word c = false.
Proof.
  unfold is_dash. intros H. apply Ascii.eqb_eq in H. subst c. reflexivity.
Qed.

Lemma soloShaped_isSoloFlag (flag dashes word : string) :
  soloShaped flag dashes word -> isSoloFlag flag = true.
Proof.
  intros (-> & Hd & Hda & Hw & Hwa). unfold isSoloFlag.
  destruct word as [|w0 word]; [congruence |].
  simpl in Hwa. apply andb_true_iff in Hwa as [Hw0 Hwa].
  assert (Hnd : is_dash w0 = false).
  { destruct (is_dash w0) eqn:E; [|reflexivity].
    apply dash_not_word in E. congruence. }
  change (String w0 word +:+ "~") with (String w0 (word +:+ "~")).
  rewrite (span_run is_dash dashes w0 (word +:+ "~") Hda Hnd).
  change (String w0 (word +:+ "~")) with (String w0 word +:+ String "~" EmptyString).
  rewrite (span_run is_word (String w0 word) "~" EmptyString).
  - rewrite (nonempty_true _ Hd). reflexivity.
  - simpl. now rewrite Hw0, Hwa.
  - reflexivity.
Qed.

Lemma soloShaped_drop_last (flag dashes word : string) :
  soloShaped flag dashes word -> drop_last flag = dashes +:+ word.
Proof.
  intros (-> & _). rewrite <- append_assoc. apply drop_last_snoc.
Qed.


Lemma dynamicLoop_app (rc : string) (items more : dict) :
  dynamicLoop rc (items ++ more) =
  (r <- dynamicLoop rc items ;; dynamicLoop r more).
Proof.
  revert rc. induction items as [|item items IH]; intros rc; simpl.
  - reflexivity.
  - destruct (dynamicStep rc item) as [r|e]; simpl; [apply IH | reflexivity].
Qed.

(** ** Flag formatter and dynamic builder *)




(** C7. For a flag made of one or more dashes, one or more word
    characters and a closing tilde, the dynamic builder appends the flag
    without the tilde and nothing else, whatever the value and the two
    booleans of the entry are. *)
Theorem solo_flag_ignores_value :
  forall (flag dashes word rc : string) (isPath isMandatory : bool)
         (value : PyVal) (items : dict),
  soloShaped flag dashes word ->
  isSoloFlag flag = true /\
  dynamicStep rc (KFlag flag isPath isMandatory, value) =
  Ok (rc +:+ " " +:+ dashes +:+ word) /\
  dynamicLoop rc (items ++ [(KFlag flag isPath isMandatory, value)]) =
  (r <- dynamicLoop rc items ;; Ok (r +:+ " " +:+ dashes +:+ word)).
Proof.
  intros flag dashes word rc isPath isMandatory value items Hshape.
  pose proof (soloShaped_isSoloFlag _ _ _ Hshape) as Hsolo.
  pose proof (soloShaped_drop_last _ _ _ Hshape) as Hdrop.
  assert (Hstep : forall r,
    dynamicStep r (KFlag flag isPath isMandatory, value) =
    Ok (r +:+ " " +:+ dashes +:+ word)).
  { intros r. unfold dynamicStep, unpack_key. now rewrite Hsolo, Hdrop. }
  repeat split; [exact Hsolo | apply Hstep |].
  rewrite dynamicLoop_app.
  destruct (dynamicLoop rc items) as [r|e]; cbn [bind dynamicLoop]; [| reflexivity].
  now rewrite Hstep.
Qed.

(** [$] also matches before a newline that ends the string: such a token
    passes the test of [isSoloFlag], and the character cut off is the
    newline. It is not of the shape above. *)
Example solo_flag_before_final_newline :
  isSoloFlag (String "-" (String "b" (String "~" (String "010" EmptyString)))) = true /\
  drop_last (String "-" (String "b" (String "~" (String "010" EmptyString)))) = "-b~".
Proof. split; reflexivity. Qed.

Lemma solo_flag_ignores_value_witness :
  soloShaped "--background~" "--" "background" /\
  dynamicStep "blender" (KFlag "--background~" true true, PyStr "ignored") =
  Ok "blender --background".
Proof.
  assert (H : soloShaped "--background~" "--" "background").
  { repeat split; discriminate. }
  split; [exact H |].
  exact (proj1 (proj2 (solo_flag_ignores_value "--background~" "--" "background"
                         "blender" true true (PyStr "ignored") [] H))).
Defined.

(** ** Named engine builders *)

Lemma dispatch_maya (C : ConstantsT) (JT : JobTypesT) (ld : LayerData) (silent : bool) :
  layerType ld = MAYA JT -> mem (MAYA JT) (FROM_CONFIG_FILE JT) = false ->
  buildLayerCommand C JT ld silent =
  (l <- buildMayaCmd C ld silent ;; Ok (CmdList l)).
Proof.
  intros Ht Hm. unfold buildLayerCommand. rewrite Ht, Hm, String.eqb_refl.
  reflexivity.
Qed.

(** C1, as amended. A Maya layer whose [mayaFile] entry is absent, empty
    or [None] makes the command builder raise the validation error in
    normal mode; in silent mode the builder raises nothing and returns the
    usual argument list, closed by the missing value itself. *)
Theorem maya_missing_file :
  forall (C : ConstantsT) (JT : JobTypesT) (ld : LayerData),
  layerType ld = MAYA JT ->
  mem (MAYA JT) (FROM_CONFIG_FILE JT) = false ->
  truthy (dict_get (cmd ld) "mayaFile" PyNone) = false ->
  buildLayerCommand C JT ld false =
  Raise (ValueError "No Maya File provided. Cannot submit job.") /\
  buildLayerCommand C JT ld true =
  Ok (CmdList
        ([PyStr (MAYA_RENDER_CMD C); PyStr "-r"; PyStr "file";
          PyStr "-s"; PyStr (FRAME_START_TOKEN C);
          PyStr "-e"; PyStr (FRAME_END_TOKEN C)]
         ++ (if truthy (dict_get (cmd ld) "camera" PyNone)
             then [PyStr "-cam"; dict_get (cmd ld) "camera" PyNone] else [])
         ++ [dict_get (cmd ld) "mayaFile" PyNone])).
Proof.
  intros C JT ld Ht Hm Hfile.
  rewrite !(dispatch_maya C JT ld _ Ht Hm). unfold buildMayaCmd.
  rewrite Hfile. simpl. split; [reflexivity |].
  destruct (truthy (dict_get (cmd ld) "camera" PyNone)); reflexivity.
Qed.

Lemma maya_missing_file_witness :
  buildLayerCommand sampleConstants sampleJobTypes mayaNoFile false =
  Raise (ValueError "No Maya File provided. Cannot submit job.") /\
  buildLayerCommand sampleConstants sampleJobTypes mayaNoFile true =
  Ok (CmdList [PyStr "Render"; PyStr "-r"; PyStr "file"; PyStr "-s";
               PyStr "#FRAME_START#"; PyStr "-e"; PyStr "#FRAME_END#";
               PyStr "-cam"; PyStr "persp"; PyNone]).
Proof.
  exact (maya_missing_file sampleConstants sampleJobTypes mayaNoFile
           eq_refl eq_refl eq_refl).
Defined.

(** C1, as stated, fails in silent mode: for a Maya layer without a
    [mayaFile] entry the builder returns an argument list ending in
    [None], not a string. *)
Lemma maya_preview_returns_a_list :
  layerType mayaNoFile = MAYA sampleJobTypes /\
  dict_find (cmd mayaNoFile) "mayaFile" = None /\
  buildLayerCommand sampleConstants sampleJobTypes mayaNoFile true =
  Ok (CmdList [PyStr "Render"; PyStr "-r"; PyStr "file"; PyStr "-s";
               PyStr "#FRAME_START#"; PyStr "-e"; PyStr "#FRAME_END#";
               PyStr "-cam"; PyStr "persp"; PyNone]) /\
  forall s : string,
    buildLayerCommand sampleConstants sampleJobTypes mayaNoFile true <> Ok (CmdStr s).
Proof.
  repeat split. intros s. discriminate.
Qed.

Lemma blenderBaseArgs_members (C : ConstantsT) (ld : LayerData) (x : PyVal) :
  In x (blenderBaseArgs C ld) ->
  In x blenderFixedFlags \/ In x (blenderLayerValues C ld).
Proof.
  unfold blenderBaseArgs, blenderFixedFlags, blenderLayerValues.
  destruct (truthy (dict_get (cmd ld) "useCompositing" (PyBool true)));
  destruct (truthy (dict_get (cmd ld) "outputPath" PyNone));
  destruct (truthy (dict_get (cmd ld) "outputFormat" PyNone));
  simpl; intuition.
Qed.

(** C6, as amended. A Blender argument list is a leading part made of the
    fixed flags and of the values the layer supplies, followed by the
    frame flags: start placeholder, end placeholder and [-a] when the
    range matches digits-dash-digits, [-f] and the frame token otherwise.
    Outside the frame flags, [-f], [-s], [-e] or [-a] can only be a value
    the layer supplies. *)
Theorem blender_frame_flags :
  forall (C : ConstantsT) (ld : LayerData) (silent : bool) (args : list PyVal),
  buildBlenderCmd C ld silent = Ok args ->
  exists base : list PyVal,
    args = base ++
      (if isFrameRange (layerRange ld)
       then [PyStr "-s"; PyStr (FRAME_START_TOKEN C);
             PyStr "-e"; PyStr (FRAME_END_TOKEN C); PyStr "-a"]
       else [PyStr "-f"; PyStr (FRAME_TOKEN C)]) /\
    forall x : PyVal,
      In x base -> In x blenderFixedFlags \/ In x (blenderLayerValues C ld).
Proof.
  intros C ld silent args H. unfold buildBlenderCmd in H.
  destruct (negb (truthy (dict_get (cmd ld) "blenderFile" PyNone)) && negb silent);
    [discriminate |].
  injection H as <-. exists (blenderBaseArgs C ld). split.
  - unfold blenderFrameArgs. destruct (isFrameRange (layerRange ld)); reflexivity.
  - apply blenderBaseArgs_members.
Qed.

Lemma blender_frame_flags_witness :
  exists base : list PyVal,
    [PyStr "blender"; PyStr "-b"; PyStr "-noaudio"; PyStr "scene.blend";
     PyStr "--use-compositing"; PyStr "-s"; PyStr "#FRAME_START#";
     PyStr "-e"; PyStr "#FRAME_END#"; PyStr "-a"] =
    base ++ [PyStr "-s"; PyStr "#FRAME_START#"; PyStr "-e"; PyStr "#FRAME_END#"; PyStr "-a"] /\
    forall x : PyVal,
      In x base ->
      In x blenderFixedFlags \/
      In x (blenderLayerValues sampleConstants (blenderScene "1-100")).
Proof.
  exact (blender_frame_flags sampleConstants (blenderScene "1-100") false _ eq_refl).
Defined.

(** C6, as stated, fails when a value of the layer is itself [-f]: the
    range matches, the list ends with the animation flags, and [-f] is in
    the list as the output path. *)
Lemma blender_range_list_may_hold_dash_f :
  isFrameRange (layerRange blenderDashF) = true /\
  buildBlenderCmd sampleConstants blenderDashF false =
  Ok [PyStr "blender"; PyStr "-b"; PyStr "-noaudio"; PyStr "scene.blend";
      PyStr "--use-compositing"; PyStr "-o"; PyStr "-f";
      PyStr "-s"; PyStr "#FRAME_START#"; PyStr "-e"; PyStr "#FRAME_END#"; PyStr "-a"] /\
  ~ (forall args : list PyVal,
       buildBlenderCmd sampleConstants blenderDashF false = Ok args ->
       ~ In (PyStr "-f") args).
Proof.
  repeat split. intros H. apply (H _ eq_refl). simpl. tauto.
Qed.

Example blender_range_1_100 :
  buildBlenderCmd sampleConstants (blenderScene "1-100") false =
  Ok [PyStr "blender"; PyStr "-b"; PyStr "-noaudio"; PyStr "scene.blend";
      PyStr "--use-compositing"; PyStr "-s"; PyStr "#FRAME_START#";
      PyStr "-e"; PyStr "#FRAME_END#"; PyStr "-a"].
Proof. reflexivity. Qed.

Example blender_single_frame_50 :
  buildBlenderCmd sampleConstants (blenderScene "50") false =
  Ok [PyStr "blender"; PyStr "-b"; PyStr "-noaudio"; PyStr "scene.blend";
      PyStr "--use-compositing"; PyStr "-f"; PyStr "#IFRAME#"].
Proof. reflexivity. Qed.

(** C9. A Blender layer whose [cmd] has no [useCompositing] key gets
    [--use-compositing]; whenever a list is built without that flag, the
    key is there with a false value. A list is built as soon as the scene
    file is given or the mode is silent. *)
Theorem blender_compositing_default :
  forall (C : ConstantsT) (ld : LayerData) (silent : bool),
  truthy (dict_get (cmd ld) "blenderFile" PyNone) = true \/ silent = true ->
  exists args : list PyVal,
    buildBlenderCmd C ld silent = Ok args /\
    (dict_find (cmd ld) "useCompositing" = None ->
     In (PyStr "--use-compositing") args) /\
    (~ In (PyStr "--use-compositing") args ->
     exists v : PyVal,
       dict_find (cmd ld) "useCompositing" = Some v /\ truthy v = false).
Proof.
  intros C ld silent Hbuilt.
  assert (Hguard :
    negb (truthy (dict_get (cmd ld) "blenderFile" PyNone)) && negb silent = false).
  { destruct Hbuilt as [-> | ->]; [reflexivity | apply andb_false_r]. }
  unfold buildBlenderCmd. rewrite Hguard. eexists. split; [reflexivity |].
  assert (Hin : truthy (dict_get (cmd ld) "useCompositing" (PyBool true)) = true ->
                In (PyStr "--use-compositing")
                   (blenderBaseArgs C ld ++ blenderFrameArgs C (layerRange ld))).
  { intros Ht. apply in_or_app. left. unfold blenderBaseArgs. rewrite Ht.
    destruct (truthy (dict_get (cmd ld) "outputPath" PyNone));
    destruct (truthy (dict_get (cmd ld) "outputFormat" PyNone));
    simpl; tauto. }
  split.
  - intros Hnone. apply Hin. unfold dict_get. now rewrite Hnone.
  - intros Hnot. unfold dict_get in Hin.
    destruct (dict_find (cmd ld) "useCompositing") as [v|].
    + exists v. split; [reflexivity |].
      destruct (truthy v); [exfalso; apply Hnot, Hin; reflexivity | reflexivity].
    + exfalso. apply Hnot, Hin. reflexivity.
Qed.

Lemma blender_compositing_default_witness :
  exists args : list PyVal,
    buildBlenderCmd sampleConstants (blenderScene "50") false = Ok args /\
    In (PyStr "--use-compositing") args.
Proof.
  destruct (blender_compositing_default sampleConstants (blenderScene "50") false
              (or_introl eq_refl)) as (args & Hb & Hin & _).
  exists args. split; [exact Hb | exact (Hin eq_refl)].
Defined.

Example blender_compositing_switched_off :
  buildBlenderCmd sampleConstants
    (sampleLayer "Blender"
       [(KName "blenderFile", PyStr "scene.blend");
        (KName "useCompositing", PyBool false)] "50") false =
  Ok [PyStr "blender"; PyStr "-b"; PyStr "-noaudio"; PyStr "scene.blend";
      PyStr "-f"; PyStr "#IFRAME#"].
Proof. reflexivity. Qed.

(** The tokens of the quoted command line. *)
Lemma shlex_split_quotedCommandLine :
  shlex_split quotedCommandLine = Ok ["my app"; "--flag"; "value with space"].
Proof. reflexivity. Qed.

(** C8. A shell layer whose [commandTextBox] is the command line
    [ "my app" --flag "value with space" ] gives exactly the three tokens
    [my app], [--flag] and [value with space], in both modes. *)
Theorem shell_command_keeps_quoted_tokens :
  forall (C : ConstantsT) (JT : JobTypesT) (ld : LayerData) (silent : bool),
  layerType ld = SHELL JT ->
  mem (SHELL JT) (FROM_CONFIG_FILE JT) = false ->
  String.eqb (SHELL JT) (MAYA JT) = false ->
  dict_find (cmd ld) "commandTextBox" = Some (PyStr quotedCommandLine) ->
  buildLayerCommand C JT ld silent =
  Ok (CmdList [PyStr "my app"; PyStr "--flag"; PyStr "value with space"]).
Proof.
  intros C JT ld silent Ht Hm Hne Hcmd.
  unfold buildLayerCommand. rewrite Ht, Hm, Hne, String.eqb_refl.
  unfold buildShellCmd, dict_get, dict_index. rewrite Hcmd.
  destruct silent; reflexivity.
Qed.

Lemma shell_command_keeps_quoted_tokens_witness :
  buildLayerCommand sampleConstants sampleJobTypes shellQuoted false =
  Ok (CmdList [PyStr "my app"; PyStr "--flag"; PyStr "value with space"]).
Proof.
  exact (shell_command_keeps_quoted_tokens sampleConstants sampleJobTypes
           shellQuoted false eq_refl eq_refl eq_refl eq_refl).
Defined.

(** Splitting on blanks alone would cut the quoted parts: the quotes are
    what keeps [my app] in one token. *)
Example shlex_split_unquoted :
  shlex_split "my app --flag value" = Ok ["my"; "app"; "--flag"; "value"].
Proof. reflexivity. Qed.

Example shlex_split_unclosed_quote :
  shlex_split "echo 'oops" = Raise (ValueError "No closing quotation").
Proof. reflexivity. Qed.

(** ** Layer assembler *)

Lemma mem_In (k : string) (l : list string) : mem k l = true <-> In k l.
Proof.
  induction l as [|x l IH]; simpl.
  - split; [discriminate | tauto].
  - rewrite orb_true_iff, String.eqb_eq, IH. intuition congruence.
Qed.

(** What [buildLayer] puts on the layer it returns. *)
Lemma buildLayer_fields (gs : list string) (gso : string -> string -> result PyVal)
    (fs : string -> result PrimFloat.float)
    (ld : LayerData) (command : Command) (last : option Layer) (layer : Layer) :
  buildLayer gs gso fs ld command last = Ok layer ->
  resolveThreadable gs gso fs ld = Ok (layer_threadable layer) /\
  commandTokens command = Ok (layer_command layer) /\
  layer_depends layer = expectedEdges (dependType ld) last.
Proof.
  unfold buildLayer. intros H.
  destruct (resolveThreadable gs gso fs ld) as [th|e]; [| discriminate].
  destruct (commandTokens command) as [toks|e]; [| discriminate].
  cbn [bind] in H. injection H as <-.
  unfold expectedEdges.
  destruct (services ld), (limits ld), (truthy (dependType ld)), last;
    try destruct (PyVal_eqb (dependType ld) (PyStr "Layer"));
    repeat split; reflexivity.
Qed.

(** [buildLayer] returns a layer as soon as the threadable option and
    the command tokens are there. *)
Lemma buildLayer_total (gs : list string) (gso : string -> string -> result PyVal)
    (fs : string -> result PrimFloat.float)
    (ld : LayerData) (command : Command) (last : option Layer)
    (th : PyVal) (toks : list PyVal) :
  resolveThreadable gs gso fs ld = Ok th ->
  commandTokens command = Ok toks ->
  exists layer : Layer, buildLayer gs gso fs ld command last = Ok layer.
Proof.
  intros Hth Htoks. unfold buildLayer. rewrite Hth, Htoks. cbn [bind].
  eexists. reflexivity.
Qed.

Lemma resolveThreadable_cores (gs : list string)
    (gso : string -> string -> result PyVal)
    (fs : string -> result PrimFloat.float) (ld : LayerData)
    (f : PrimFloat.float) :
  overrideCores ld = true -> py_float fs (cores ld) = Ok f ->
  resolveThreadable gs gso fs ld =
  Ok (PyBool (PrimFloat.leb PrimFloat.two f || PrimFloat.leb f PrimFloat.zero)).
Proof.
  intros Ho Hf. unfold resolveThreadable. now rewrite Ho, Hf.
Qed.

(** A layer with a resolved flag and an argument list is built, and
    carries the flag. *)
Lemma buildLayer_threadable (gs : list string)
    (gso : string -> string -> result PyVal)
    (fs : string -> result PrimFloat.float) (ld : LayerData)
    (args : list PyVal) (last : option Layer) (th : PyVal) :
  resolveThreadable gs gso fs ld = Ok th ->
  exists layer : Layer,
    buildLayer gs gso fs ld (CmdList args) last = Ok layer /\
    layer_threadable layer = th.
Proof.
  intros Hth.
  destruct (buildLayer_total gs gso fs ld (CmdList args) last _ _ Hth eq_refl)
    as [layer Hl].
  exists layer. split; [exact Hl |].
  apply buildLayer_fields in Hl as (Hth' & _ & _). congruence.
Qed.

(** C2. The threadable flag of the layer built. With [overrideCores],
    [float(cores)] is taken and the flag is the boolean telling whether
    that float is at least 2 or at most 0; as soon as [float(cores)] is
    there and the command is a list, a layer is built with this flag, so
    that the integer cores 1, 0 and 8 give [False], [True] and [True].
    Without [overrideCores], with a first service that the registry
    lists, the flag is that service's [threadable] option; otherwise it
    is [False] and, in particular, with a first service that the registry
    does not list, a layer is built and nothing is raised. *)
Theorem threadable_resolution :
  forall (gs : list string) (gso : string -> string -> result PyVal)
         (fs : string -> result PrimFloat.float)
         (ld : LayerData) (last : option Layer),
  (forall (command : Command) (layer : Layer),
     buildLayer gs gso fs ld command last = Ok layer ->
     (overrideCores ld = true ->
      exists (f : PrimFloat.float) (b : bool),
        py_float fs (cores ld) = Ok f /\
        layer_threadable layer = PyBool b /\
        (b = true <->
         PrimFloat.leb PrimFloat.two f = true \/
         PrimFloat.leb f PrimFloat.zero = true)) /\
     (overrideCores ld = false ->
      forall (first : string) (rest : list string),
        services ld = first :: rest -> In first gs ->
        gso first "threadable" = Ok (layer_threadable layer)) /\
     (overrideCores ld = false ->
      services ld = [] \/
      (exists (first : string) (rest : list string),
         services ld = first :: rest /\ ~ In first gs) ->
      layer_threadable layer = PyBool false)) /\
  (overrideCores ld = true ->
   forall (f : PrimFloat.float) (args : list PyVal),
     py_float fs (cores ld) = Ok f ->
     exists layer : Layer,
       buildLayer gs gso fs ld (CmdList args) last = Ok layer /\
       layer_threadable layer =
       PyBool (PrimFloat.leb PrimFloat.two f || PrimFloat.leb f PrimFloat.zero)) /\
  (overrideCores ld = true ->
   forall args : list PyVal,
     (cores ld = CoresOther (PyInt 1) ->
      exists layer : Layer,
        buildLayer gs gso fs ld (CmdList args) last = Ok layer /\
        layer_threadable layer = PyBool false) /\
     (cores ld = CoresOther (PyInt 0) ->
      exists layer : Layer,
        buildLayer gs gso fs ld (CmdList args) last = Ok layer /\
        layer_threadable layer = PyBool true) /\
     (cores ld = CoresOther (PyInt 8) ->
      exists layer : Layer,
        buildLayer gs gso fs ld (CmdList args) last = Ok layer /\
        layer_threadable layer = PyBool true)) /\
  (overrideCores ld = false ->
   forall (first : string) (rest : list string) (args : list PyVal)
          (th : PyVal),
     services ld = first :: rest -> In first gs ->
     gso first "threadable" = Ok th ->
     exists layer : Layer,
       buildLayer gs gso fs ld (CmdList args) last = Ok layer /\
       layer_threadable layer = th) /\
  (overrideCores ld = false ->
   forall args : list PyVal,
     services ld = [] \/
     (exists (first : string) (rest : list string),
        services ld = first :: rest /\ ~ In first gs) ->
     exists layer : Layer,
       buildLayer gs gso fs ld (CmdList args) last = Ok layer /\
       layer_threadable layer = PyBool false).
Proof.
  intros gs gso fs ld last.
  assert (Hunlisted :
    overrideCores ld = false ->
    services ld = [] \/
    (exists first rest, services ld = first :: rest /\ ~ In first gs) ->
    resolveThreadable gs gso fs ld = Ok (PyBool false)).
  { intros Ho Hs. unfold resolveThreadable. rewrite Ho.
    destruct Hs as [-> | (first & rest & -> & Hnin)]; [reflexivity |].
    destruct (mem first gs) eqn:E; [| reflexivity].
    apply mem_In in E. contradiction. }
  assert (Hint : forall n : Z,
    overrideCores ld = true -> cores ld = CoresOther (PyInt n) ->
    forall f, float_of_int n = Ok f ->
    resolveThreadable gs gso fs ld =
    Ok (PyBool (PrimFloat.leb PrimFloat.two f || PrimFloat.leb f PrimFloat.zero))).
  { intros n Ho Hc f Hf. apply resolveThreadable_cores; [exact Ho |].
    rewrite Hc. exact Hf. }
  repeat split.
  - intros Ho. apply buildLayer_fields in H as (Hth & _ & _).
    unfold resolveThreadable in Hth. rewrite Ho in Hth.
    destruct (py_float fs (cores ld)) as [f|e]; [| discriminate].
    cbn [bind] in Hth. injection Hth as Hth.
    exists f. eexists. split; [reflexivity |]. split; [symmetry; exact Hth |].
    now rewrite orb_true_iff.
  - intros Ho first rest Hs Hin. apply buildLayer_fields in H as (Hth & _ & _).
    unfold resolveThreadable in Hth. rewrite Ho, Hs in Hth.
    apply mem_In in Hin. now rewrite Hin in Hth.
  - intros Ho Hs. apply buildLayer_fields in H as (Hth & _ & _).
    rewrite (Hunlisted Ho Hs) in Hth. congruence.
  - intros Ho f args Hf. apply buildLayer_threadable.
    now apply resolveThreadable_cores.
  - intros Hc. apply buildLayer_threadable.
    exact (Hint 1%Z H Hc PrimFloat.one eq_refl).
  - intros Hc. apply buildLayer_threadable.
    exact (Hint 0%Z H Hc PrimFloat.zero eq_refl).
  - intros Hc. apply buildLayer_threadable.
    exact (Hint 8%Z H Hc _ eq_refl).
  - intros Ho first rest args th Hs Hin Hth. apply buildLayer_threadable.
    unfold resolveThreadable. rewrite Ho, Hs. apply mem_In in Hin.
    now rewrite Hin.
  - intros Ho args Hs. apply buildLayer_threadable. now apply Hunlisted.
Qed.

Lemma threadable_resolution_witness :
  exists layer : Layer,
    buildLayer sampleServices sampleServiceOption sampleFloatOfStr
      (coresLayer (CoresOther (PyInt 1))) (CmdList [PyStr "echo"]) None =
    Ok layer /\
    layer_threadable layer = PyBool false.
Proof.
  exact (proj1 (proj1 (proj2 (proj2
           (threadable_resolution sampleServices sampleServiceOption
              sampleFloatOfStr (coresLayer (CoresOther (PyInt 1))) None)))
           eq_refl [PyStr "echo"]) eq_refl).
Defined.

(** The flag of the layer built for [layerData] from the one-word command
    [echo], or the error raised. *)
Example threadable_cores_1 :
  buildLayer sampleServices sampleServiceOption sampleFloatOfStr
    (coresLayer (CoresOther (PyInt 1))) (CmdList [PyStr "echo"]) None =
  Ok (mkLayer "layer" [PyStr "echo"] 1 (Some (CoresOther (PyInt 1))) "1"
        (PyBool false) (Some "maya") [] []).
Proof. reflexivity. Qed.

Example threadable_cores_0 :
  buildLayer sampleServices sampleServiceOption sampleFloatOfStr
    (coresLayer (CoresOther (PyInt 0))) (CmdList [PyStr "echo"]) None =
  Ok (mkLayer "layer" [PyStr "echo"] 1 (Some (CoresOther (PyInt 0))) "1"
        (PyBool true) (Some "maya") [] []).
Proof. reflexivity. Qed.

Example threadable_cores_8 :
  buildLayer sampleServices sampleServiceOption sampleFloatOfStr
    (coresLayer (CoresOther (PyInt 8))) (CmdList [PyStr "echo"]) None =
  Ok (mkLayer "layer" [PyStr "echo"] 1 (Some (CoresOther (PyInt 8))) "1"
        (PyBool true) (Some "maya") [] []).
Proof. reflexivity. Qed.

(** A negative count is threadable, a float between 0 and 2 is not. *)
Example threadable_cores_negative :
  resolveThreadable sampleServices sampleServiceOption sampleFloatOfStr
    (coresLayer (CoresOther (PyInt (-1)))) = Ok (PyBool true).
Proof. reflexivity. Qed.

(** A text that [float] rounds to 2 is threadable. *)
Example threadable_cores_rounded_to_two :
  resolveThreadable sampleServices sampleServiceOption sampleFloatOfStr
    (coresLayer (CoresOther (PyStr "1.9999999999999999999"))) = Ok (PyBool true).
Proof. reflexivity. Qed.

(** Not a number: neither comparison holds. *)
Example threadable_cores_nan :
  resolveThreadable sampleServices sampleServiceOption sampleFloatOfStr
    (coresLayer (CoresFloat PrimFloat.nan)) = Ok (PyBool false).
Proof. reflexivity. Qed.

(** [float] raises for an integer beyond the doubles, for [None] and for a
    text that is no number, and so does [buildLayer]. *)
Example threadable_cores_overflow :
  buildLayer sampleServices sampleServiceOption sampleFloatOfStr
    (coresLayer (CoresOther (PyInt (10 ^ 400)))) (CmdList [PyStr "echo"]) None =
  Raise (OverflowError "int too large to convert to float").
Proof. reflexivity. Qed.

Example threadable_cores_none :
  buildLayer sampleServices sampleServiceOption sampleFloatOfStr
    (coresLayer (CoresOther PyNone)) (CmdList [PyStr "echo"]) None =
  Raise (TypeError
           "float() argument must be a string or a real number, not 'NoneType'").
Proof. reflexivity. Qed.

Example threadable_cores_text :
  buildLayer sampleServices sampleServiceOption sampleFloatOfStr
    (coresLayer (CoresOther (PyStr "many"))) (CmdList [PyStr "echo"]) None =
  Raise (ValueError "could not convert string to float: 'many'").
Proof. reflexivity. Qed.

Example threadable_registered_service :
  buildLayer sampleServices sampleServiceOption sampleFloatOfStr
    (serviceLayer ["maya"]) (CmdList [PyStr "echo"]) None =
  Ok (mkLayer "layer" [PyStr "echo"] 1 None "1" (PyBool true) (Some "maya") [] []).
Proof. reflexivity. Qed.

Example threadable_unlisted_service :
  buildLayer sampleServices sampleServiceOption sampleFloatOfStr
    (serviceLayer ["houdini"]) (CmdList [PyStr "echo"]) None =
  Ok (mkLayer "layer" [PyStr "echo"] 1 None "1" (PyBool false) (Some "houdini")
        [] []).
Proof. reflexivity. Qed.



Example buildLayer_unclosed_quote :
  buildLayer sampleServices sampleServiceOption sampleFloatOfStr (serviceLayer ["maya"])
    (CmdStr "kick 'scene") None = Raise (ValueError "No closing quotation").
Proof. reflexivity. Qed.

(** ** Job assembler *)

Lemma chained_length (lds : list LayerData) :
  forall (prev : option Layer) (ls : list Layer),
  chained prev lds ls -> length ls = length lds.
Proof.
  induction lds as [|ld lds IH]; intros prev [|l ls] H; simpl in *;
    try tauto.
  destruct H as [_ H]. f_equal. exact (IH _ _ H).
Qed.

Lemma chained_nth (lds : list LayerData) :
  forall (prev : option Layer) (ls : list Layer) (i : nat)
         (ld : LayerData) (l : Layer),
  chained prev lds ls ->
  nth_error lds i = Some ld -> nth_error ls i = Some l ->
  layer_depends l =
  expectedEdges (dependType ld)
    (match i with O => prev | S j => nth_error ls j end).
Proof.
  induction lds as [|ld0 lds IH]; intros prev [|l0 ls] i ld l H Hld Hl;
    simpl in H; try tauto.
  - destruct i; discriminate.
  - destruct H as [H0 H]. destruct i as [|i]; simpl in *.
    + congruence.
    + rewrite (IH (Some l0) ls i ld l H Hld Hl).
      destruct i; reflexivity.
Qed.

(** The loop adds one layer per description, in order, each chained to the
    one before it, and touches nothing else of the outline. *)
Lemma assembleLayers_chained (C : ConstantsT) (JT : JobTypesT)
    (gs : list string) (gso : string -> string -> result PyVal)
    (fs : string -> result PrimFloat.float)
    (lds : list LayerData) :
  forall (ol : Outline) (last : option Layer) (ol' : Outline),
  assembleLayers C JT gs gso fs ol last lds = Ok ol' ->
  exists ls : list Layer,
    ol_layers ol' = ol_layers ol ++ ls /\ chained last lds ls.
Proof.
  induction lds as [|ld lds IH]; intros ol last ol' H; simpl in H.
  - injection H as <-. exists []. split; [now rewrite app_nil_r | exact I].
  - destruct (buildLayerCommand C JT ld false) as [command|e]; [| discriminate].
    cbn [bind] in H.
    destruct (buildLayer gs gso fs ld command last) as [layer|e] eqn:Hl;
      [| discriminate].
    cbn [bind] in H. apply IH in H as (ls & Hls & Hch).
    exists (layer :: ls). split.
    + rewrite Hls. simpl. now rewrite <- app_assoc.
    + simpl. split; [| exact Hch].
      now apply buildLayer_fields in Hl as (_ & _ & Hd).
Qed.

Lemma assembleLayers_raises (C : ConstantsT) (JT : JobTypesT)
    (gs : list string) (gso : string -> string -> result PyVal)
    (fs : string -> result PrimFloat.float)
    (lds : list LayerData) (ld : LayerData) (e : exn) :
  In ld lds -> buildLayerCommand C JT ld false = Raise e ->
  forall (ol : Outline) (last : option Layer),
  exists e' : exn, assembleLayers C JT gs gso fs ol last lds = Raise e'.
Proof.
  intros Hin Hraise. induction lds as [|ld0 lds IH]; [contradiction |].
  intros ol last. simpl.
  destruct Hin as [-> | Hin].
  - rewrite Hraise. eexists. reflexivity.
  - destruct (buildLayerCommand C JT ld0 false) as [command|e0];
      [| eexists; reflexivity].
    cbn [bind].
    destruct (buildLayer gs gso fs ld0 command last) as [layer|e0];
      [| eexists; reflexivity].
    cbn [bind]. apply (IH Hin).
Qed.

Lemma assembleJob_layers (C : ConstantsT) (JT : JobTypesT)
    (gs : list string) (gso : string -> string -> result PyVal)
    (fs : string -> result PrimFloat.float)
    (jd : JobData) (lds : list LayerData) (ol : Outline) :
  job_layers jd = Some lds ->
  assembleJob C JT gs gso fs jd = Ok ol ->
  chained None lds (ol_layers ol).
Proof.
  intros Hl H. unfold assembleJob in H. rewrite Hl in H.
  destruct (job_name jd), (job_shot jd), (job_show jd), (job_username jd);
    try discriminate.
  cbn [job_index bind] in H.
  match type of H with
  | context [assembleLayers C JT gs gso fs ?o None lds] =>
      destruct (assembleLayers C JT gs gso fs o None lds) as [ol0|e] eqn:Ha;
      [| discriminate]
  end.
  cbn [bind] in H. apply assembleLayers_chained in Ha as (ls & Hls & Hch).
  simpl in Hls. subst ls.
  destruct (job_facility jd); injection H as <-; exact Hch.
Qed.

(** C3. In an assembled job there is one layer per description, in
    order, and the layer at position [i] carries exactly the dependencies
    expected from its [dependType] against the layer at position [i-1]:
    none for the first layer or a false [dependType], one otherwise,
    all-to-all for ["Layer"] and frame by frame for any other value. So a
    dependency exists just when [dependType] is true and there is a layer
    before, and it points to that layer only. *)
Theorem dependency_edges :
  forall (C : ConstantsT) (JT : JobTypesT)
         (gs : list string) (gso : string -> string -> result PyVal)
    (fs : string -> result PrimFloat.float)
         (jd : JobData) (lds : list LayerData) (ol : Outline),
  job_layers jd = Some lds ->
  assembleJob C JT gs gso fs jd = Ok ol ->
  length (ol_layers ol) = length lds /\
  forall (i : nat) (ld : LayerData) (layer : Layer),
    nth_error lds i = Some ld ->
    nth_error (ol_layers ol) i = Some layer ->
    layer_depends layer =
      expectedEdges (dependType ld) (predecessorAt (ol_layers ol) i) /\
    ((exists edge, In edge (layer_depends layer)) <->
     truthy (dependType ld) = true /\ i <> O) /\
    (forall (kind : DependKind) (target : Layer),
       In (kind, target) (layer_depends layer) ->
       predecessorAt (ol_layers ol) i = Some target /\
       (kind = LayerOnLayer <-> dependType ld = PyStr "Layer")).
Proof.
  intros C JT gs gso fs jd lds ol Hl H.
  pose proof (assembleJob_layers C JT gs gso fs jd lds ol Hl H) as Hch.
  split; [exact (chained_length _ _ _ Hch) |].
  intros i ld layer Hld Hlayer.
  assert (Hd : layer_depends layer =
               expectedEdges (dependType ld) (predecessorAt (ol_layers ol) i)).
  { rewrite (chained_nth _ _ _ _ _ _ Hch Hld Hlayer). destruct i; reflexivity. }
  split; [exact Hd |]. rewrite Hd. clear Hd.
  assert (Hprev : i <> O -> exists p, predecessorAt (ol_layers ol) i = Some p).
  { intros Hi. destruct i as [|j]; [congruence |]. simpl.
    destruct (nth_error (ol_layers ol) j) eqn:E; [eauto |].
    apply nth_error_None in E.
    assert (S j < length (ol_layers ol)) by (apply nth_error_Some; congruence).
    lia. }
  unfold expectedEdges. split.
  - split.
    + intros [edge Hin].
      destruct (predecessorAt (ol_layers ol) i) eqn:Ep; [| contradiction].
      destruct (truthy (dependType ld)); [| contradiction].
      split; [reflexivity |]. intros ->. discriminate.
    + intros [Ht Hi]. destruct (Hprev Hi) as [p ->]. rewrite Ht.
      eexists. left. reflexivity.
  - intros kind target Hin.
    destruct (predecessorAt (ol_layers ol) i); [| contradiction].
    destruct (truthy (dependType ld)); [| contradiction].
    destruct Hin as [Hin | []]. injection Hin as <- <-.
    split; [reflexivity |].
    destruct (dependType ld) as [| b | z | s]; simpl;
      try (split; intros; discriminate).
    destruct (String.eqb_spec s "Layer") as [-> | Hne].
    + tauto.
    + split; [discriminate | congruence].
Qed.

Lemma dependency_edges_witness :
  exists ol : Outline,
    assembleJob sampleConstants sampleJobTypes sampleServices sampleServiceOption sampleFloatOfStr
      (sampleJob threeLayers) = Ok ol /\
    length (ol_layers ol) = 3%nat /\
    forall layer : Layer,
      nth_error (ol_layers ol) 1 = Some layer ->
      layer_depends layer =
      expectedEdges (PyStr "Layer") (nth_error (ol_layers ol) 0).
Proof.
  eexists. split; [reflexivity |].
  destruct (dependency_edges sampleConstants sampleJobTypes sampleServices
              sampleServiceOption sampleFloatOfStr (sampleJob threeLayers) threeLayers _
              eq_refl eq_refl) as [Hlen Hall].
  split; [exact Hlen |].
  intros layer Hlayer.
  exact (proj1 (Hall 1%nat (shellLayer "two" "echo 2" (PyStr "Layer")) layer
                  eq_refl Hlayer)).
Defined.

(** Three layers with ["Layer"] on the second: the second depends on the
    first as a whole, the first and the third on nothing. *)
Example three_layers_dependencies :
  match assembleJob sampleConstants sampleJobTypes sampleServices
          sampleServiceOption sampleFloatOfStr (sampleJob threeLayers) with
  | Ok ol => dependencyNames ol = [[]; [(LayerOnLayer, "one")]; []]
  | Raise _ => False
  end.
Proof. reflexivity. Qed.

(** A [dependType] on the first layer is passed over silently. *)
Example first_layer_dependType_is_ignored :
  match assembleJob sampleConstants sampleJobTypes sampleServices
          sampleServiceOption sampleFloatOfStr
          (sampleJob [shellLayer "one" "echo 1" (PyStr "Frame");
                      shellLayer "two" "echo 2" (PyStr "Frame")]) with
  | Ok ol => dependencyNames ol = [[]; [(FrameByFrame, "one")]]
  | Raise _ => False
  end.
Proof. reflexivity. Qed.

(** C4. When the command of any layer of the job cannot be built,
    [submitJob] raises and the log of launches is left as it was: the
    submission interface is not called. When the job is assembled, the
    interface is called exactly once, with the assembled outline, and its
    answer is the answer of [submitJob]. *)
Theorem failed_layer_prevents_submission :
  forall (C : ConstantsT) (JT : JobTypesT)
         (gs : list string) (gso : string -> string -> result PyVal)
    (fs : string -> result PrimFloat.float)
         (Handle : Type) (launch : Outline -> result Handle)
         (jd : JobData) (log : Launches) (lds : list LayerData),
  job_layers jd = Some lds ->
  (forall (ld : LayerData) (e : exn),
     In ld lds -> buildLayerCommand C JT ld false = Raise e ->
     exists e' : exn,
       submitJob C JT gs gso fs Handle launch jd log = (Raise e', log)) /\
  (forall ol : Outline,
     assembleJob C JT gs gso fs jd = Ok ol ->
     submitJob C JT gs gso fs Handle launch jd log = (launch ol, log ++ [ol])) /\
  (forall h : Handle,
     fst (submitJob C JT gs gso fs Handle launch jd log) = Ok h ->
     length (snd (submitJob C JT gs gso fs Handle launch jd log)) =
     S (length log)).
Proof.
  intros C JT gs gso fs Handle launch jd log lds Hl. repeat split.
  - intros ld e Hin Hraise.
    assert (Ha : exists e', assembleJob C JT gs gso fs jd = Raise e').
    { unfold assembleJob. rewrite Hl.
      destruct (job_name jd), (job_shot jd), (job_show jd), (job_username jd);
        cbn [job_index bind]; try (eexists; reflexivity).
      match goal with
      | |- context [assembleLayers C JT gs gso fs ?o None lds] =>
          destruct (assembleLayers_raises C JT gs gso fs lds ld e Hin Hraise o None)
            as [e' ->]
      end.
      eexists. reflexivity. }
    destruct Ha as [e' Ha]. exists e'. unfold submitJob. now rewrite Ha.
  - intros ol Ha. unfold submitJob. now rewrite Ha.
  - intros h. unfold submitJob.
    destruct (assembleJob C JT gs gso fs jd) as [ol|e]; simpl.
    + intros _. rewrite length_app. simpl. lia.
    + discriminate.
Qed.

Lemma failed_layer_prevents_submission_witness :
  exists e' : exn,
    submitJob sampleConstants sampleJobTypes sampleServices sampleServiceOption sampleFloatOfStr
      nat sampleLaunch mayaJob [] = (Raise e', []).
Proof.
  exact (proj1 (failed_layer_prevents_submission sampleConstants sampleJobTypes
                  sampleServices sampleServiceOption sampleFloatOfStr nat sampleLaunch mayaJob []
                  [shellLayer "one" "echo 1" PyNone; mayaNoFile] eq_refl)
           mayaNoFile
           (ValueError "No Maya File provided. Cannot submit job.")
           (or_intror (or_introl eq_refl)) eq_refl).
Defined.

Example maya_job_is_not_submitted :
  submitJob sampleConstants sampleJobTypes sampleServices sampleServiceOption sampleFloatOfStr
    nat sampleLaunch mayaJob [] =
  (Raise (ValueError "No Maya File provided. Cannot submit job."), []).
Proof. reflexivity. Qed.

Example unknown_type_job_is_not_submitted :
  submitJob sampleConstants sampleJobTypes sampleServices sampleServiceOption sampleFloatOfStr
    nat sampleLaunch unknownTypeJob [] =
  (Raise (ValueError "unrecognized layer type Houdini"), []).
Proof. reflexivity. Qed.

Example three_layer_job_is_submitted_once :
  fst (submitJob sampleConstants sampleJobTypes sampleServices
         sampleServiceOption sampleFloatOfStr nat sampleLaunch (sampleJob threeLayers) []) = Ok 3%nat /\
  length (snd (submitJob sampleConstants sampleJobTypes sampleServices
                 sampleServiceOption sampleFloatOfStr nat sampleLaunch (sampleJob threeLayers) [])) = 1%nat.
Proof. split; reflexivity. Qed.

(** * Further properties of the module *)

(** ** The three patterns, exactly *)

Lemma span_spec (p : ascii -> bool) (s : string) :
  forall a b : string,
  span p s = (a, b) ->
  s = a +:+ b /\ all_chars p a = true /\
  match b with String c _ => p c = false | EmptyString => True end.
Proof.
  induction s as [|c s IH]; simpl; intros a b H.
  - injection H as <- <-. repeat split.
  - destruct (p c) eqn:Hc.
    + destruct (span p s) as [a' b'] eqn:Hs. injection H as <- <-.
      destruct (IH a' b' eq_refl) as (-> & Ha & Hb).
      repeat split; [simpl; now rewrite Hc, Ha | exact Hb].
    + injection H as <- <-. repeat split. exact Hc.
Qed.

Lemma span_all (p : ascii -> bool) (s : string) :
  all_chars p s = true -> span p s = (s, EmptyString).
Proof.
  induction s as [|c s IH]; simpl; [reflexivity |].
  intros H. apply andb_true_iff in H as [Hc Hs]. now rewrite Hc, (IH Hs).
Qed.

(** [span] takes a run of [p] that stops at the end or before a character
    outside [p]. *)
Lemma span_prefix (p : ascii -> bool) (a b : string) :
  all_chars p a = true ->
  match b with String c _ => p c = false | EmptyString => True end ->
  span p (a +:+ b) = (a, b).
Proof.
  intros Ha Hb. destruct b as [|c b].
  - rewrite append_nil_r. now apply span_all.
  - now apply span_run.
Qed.

Lemma nonempty_iff (s : string) : nonempty s = true <-> s <> EmptyString.
Proof.
  unfold nonempty. destruct s; simpl; split; congruence.
Qed.

Lemma at_end_iff (s : string) : at_end s = true <-> endOfToken s.
Proof.
  unfold at_end, endOfToken. rewrite orb_true_iff, !String.eqb_eq. reflexivity.
Qed.

Lemma word_not_dash (c : ascii) : is_word c = true -> is_dash c = false.
Proof.
  intros H. destruct (is_dash c) eqn:E; [| reflexivity].
  apply dash_not_word in E. congruence.
Qed.

Lemma digit_is_word (c : ascii) : is_digit c = true -> is_word c = true.
Proof. unfold is_word. intros ->. reflexivity. Qed.

(** The first character of a non-empty run of [p] satisfies [p]. *)
Lemma head_of_run (p q : ascii -> bool) (w rest : string) :
  w <> EmptyString -> all_chars p w = true ->
  (forall c, p c = true -> q c = false) ->
  match w +:+ rest with String c _ => q c = false | EmptyString => True end.
Proof.
  intros Hw Hp Hpq. destruct w as [|c w]; [congruence |]. simpl in *.
  apply andb_true_iff in Hp as [Hc _]. now apply Hpq.
Qed.

Lemma endOfToken_head (p : ascii -> bool) (tail : string) :
  endOfToken tail -> p "010"%char = false ->
  match tail with String c _ => p c = false | EmptyString => True end.
Proof. intros [-> | ->] Hp; simpl; [exact I | exact Hp]. Qed.

(** [isSoloFlag] accepts exactly the tokens made of dashes, word
    characters and a tilde, with at most one final newline after them. *)
Theorem isSoloFlag_exact :
  forall flag : string,
  isSoloFlag flag = true <->
  exists dashes word tail : string,
    flag = dashes +:+ word +:+ "~" +:+ tail /\
    flagBody dashes word /\ endOfToken tail.
Proof.
  intros flag. unfold isSoloFlag. split.
  - destruct (span is_dash flag) as [d r1] eqn:H1.
    destruct (span is_word r1) as [w r2] eqn:H2.
    apply span_spec in H1 as (-> & Hd & _).
    apply span_spec in H2 as (-> & Hw & _).
    intros H. apply andb_true_iff in H as [H Hr].
    apply andb_true_iff in H as [Hnd Hnw].
    destruct r2 as [|c r3]; [discriminate |].
    destruct (Ascii.eqb_spec c "~") as [-> | Hne].
    + exists d, w, r3. repeat split; try assumption;
        try (now apply nonempty_iff).
      * now destruct (proj1 (at_end_iff r3) Hr); [left | right].
    + exfalso. revert Hr.
      destruct c as [[] [] [] [] [] [] [] []]; try discriminate;
        intros _; now apply Hne.
  - intros (d & w & tail & -> & (Hd & Hda & Hw & Hwa) & Htail).
    rewrite (span_prefix is_dash d (w +:+ "~" +:+ tail) Hda
               (head_of_run is_word is_dash w _ Hw Hwa word_not_dash)).
    rewrite (span_prefix is_word w ("~" +:+ tail) Hwa eq_refl).
    rewrite (proj2 (nonempty_iff d) Hd), (proj2 (nonempty_iff w) Hw).
    simpl. now apply at_end_iff.
Qed.

(** [isFlag] accepts exactly the tokens made of dashes and word
    characters, with at most one final newline after them. *)
Theorem isFlag_exact :
  forall flag : string,
  isFlag flag = true <->
  exists dashes word tail : string,
    flag = dashes +:+ word +:+ tail /\
    flagBody dashes word /\ endOfToken tail.
Proof.
  intros flag. unfold isFlag. split.
  - destruct (span is_dash flag) as [d r1] eqn:H1.
    destruct (span is_word r1) as [w r2] eqn:H2.
    apply span_spec in H1 as (-> & Hd & _).
    apply span_spec in H2 as (-> & Hw & _).
    intros H. apply andb_true_iff in H as [H Hr].
    apply andb_true_iff in H as [Hnd Hnw].
    exists d, w, r2. repeat split; try assumption;
      try (now apply nonempty_iff).
    now apply at_end_iff.
  - intros (d & w & tail & -> & (Hd & Hda & Hw & Hwa) & Htail).
    rewrite (span_prefix is_dash d (w +:+ tail) Hda
               (head_of_run is_word is_dash w _ Hw Hwa word_not_dash)).
    rewrite (span_prefix is_word w tail Hwa
               (endOfToken_head is_word tail Htail eq_refl)).
    rewrite (proj2 (nonempty_iff d) Hd), (proj2 (nonempty_iff w) Hw).
    simpl. now apply at_end_iff.
Qed.

(** [isFrameRange] accepts exactly digits, a dash and digits, with at most
    one final newline after them. *)
Theorem isFrameRange_exact :
  forall frameRange : string,
  isFrameRange frameRange = true <->
  exists first last tail : string,
    frameRange = first +:+ "-" +:+ last +:+ tail /\
    rangeBody first last /\ endOfToken tail.
Proof.
  intros r. unfold isFrameRange. split.
  - destruct (span is_digit r) as [a r1] eqn:H1.
    apply span_spec in H1 as (-> & Ha & _).
    intros H. apply andb_true_iff in H as [Hna Hr].
    destruct r1 as [|c r2]; [discriminate |].
    destruct (Ascii.eqb_spec c "-") as [-> | Hne].
    + destruct (span is_digit r2) as [b r3] eqn:H2.
      apply span_spec in H2 as (-> & Hb & _).
      apply andb_true_iff in Hr as [Hnb Hr].
      exists a, b, r3. repeat split; try assumption;
        try (now apply nonempty_iff).
      now apply at_end_iff.
    + exfalso. revert Hr.
      destruct c as [[] [] [] [] [] [] [] []]; try discriminate;
        intros _; now apply Hne.
  - intros (a & b & tail & -> & (Ha & Haa & Hb & Hba) & Htail).
    rewrite (span_prefix is_digit a ("-" +:+ b +:+ tail) Haa eq_refl).
    rewrite (proj2 (nonempty_iff a) Ha). simpl.
    rewrite (span_prefix is_digit b tail Hba
               (endOfToken_head is_digit tail Htail eq_refl)).
    rewrite (proj2 (nonempty_iff b) Hb). simpl. now apply at_end_iff.
Qed.

(** No token is both a flag and a solo flag. *)
Theorem solo_flag_is_not_a_flag :
  forall flag : string, isSoloFlag flag = true -> isFlag flag = false.
Proof.
  intros flag. unfold isSoloFlag, isFlag.
  destruct (span is_dash flag) as [d r1].
  destruct (span is_word r1) as [w r2].
  intros H. apply andb_true_iff in H as [_ Hr].
  destruct r2 as [|c r3]; [discriminate |].
  destruct c as [[] [] [] [] [] [] [] []]; try discriminate.
  unfold at_end. simpl. now rewrite andb_false_r.
Qed.

Lemma solo_flag_is_not_a_flag_witness :
  isSoloFlag "--background~" = true /\ isFlag "--background~" = false.
Proof.
  split; [reflexivity |].
  exact (solo_flag_is_not_a_flag "--background~" eq_refl).
Defined.

(** ** Flag formatter *)

(** A path value that is given is returned between one pair of double
    quotes, mandatory or not. *)
Theorem formatValue_quotes_paths :
  forall (flag : string) (value : PyVal) (isMandatory : bool),
  truthy value = true ->
  formatValue flag value true isMandatory =
  PyStr (dquote +:+ py_str value +:+ dquote).
Proof.
  intros flag value isMandatory Ht. unfold formatValue. rewrite Ht. simpl.
  now rewrite andb_false_r.
Qed.

Lemma formatValue_quotes_paths_witness :
  formatValue "-o" (PyStr "/my renders/shot") true true =
  PyStr (dquote +:+ "/my renders/shot" +:+ dquote).
Proof.
  exact (formatValue_quotes_paths "-o" (PyStr "/my renders/shot") true eq_refl).
Defined.

(** What [formatValue] returns for a mandatory flag is never the empty
    string and never [None]. *)
Theorem formatValue_mandatory_never_empty :
  forall (flag : string) (value : PyVal) (isPath : bool),
  in_empty_or_none (formatValue flag value isPath true) = false.
Proof.
  intros flag value isPath. unfold formatValue.
  destruct (isPath && truthy value); simpl; [reflexivity |].
  destruct (in_empty_or_none value) eqn:E; [reflexivity | exact E].
Qed.

(** ** Dynamic builder *)

Lemma dynamicStep_appends (rc : string) (item : Key * PyVal) (r : string) :
  dynamicStep rc item = Ok r -> exists suffix : string, r = rc +:+ suffix.
Proof.
  unfold dynamicStep. destruct item as [key value].
  destruct (unpack_key key) as [[[flag isPath] isMandatory]|e]; [| discriminate].
  destruct (isSoloFlag flag).
  - intros H. injection H as <-. eexists. reflexivity.
  - destruct (isFlag flag && _).
    + intros H. injection H as <-. eexists. reflexivity.
    + destruct (negb _); intros H; injection H as <-.
      * eexists. reflexivity.
      * exists EmptyString. now rewrite append_nil_r.
Qed.

(** The dynamic builder only ever appends to the command template of the
    layer's type; with an empty [cmd] it returns the template itself, and
    for a type without a template it raises [KeyError]. *)
Theorem buildDynamicCmd_extends_template :
  forall (C : ConstantsT) (ld : LayerData),
  (forall r : string,
     buildDynamicCmd C ld = Ok r ->
     exists template suffix : string,
       assoc (RENDER_CMDS C) (layerType ld) = Some template /\
       r = template +:+ suffix) /\
  (forall template : string,
     assoc (RENDER_CMDS C) (layerType ld) = Some template ->
     cmd ld = [] -> buildDynamicCmd C ld = Ok template) /\
  (assoc (RENDER_CMDS C) (layerType ld) = None ->
   buildDynamicCmd C ld = Raise (KeyError (layerType ld))).
Proof.
  intros C ld. unfold buildDynamicCmd. repeat split.
  - destruct (assoc (RENDER_CMDS C) (layerType ld)) as [template|];
      [| discriminate].
    intros r H. exists template.
    assert (Hloop : forall items rc r0,
      dynamicLoop rc items = Ok r0 -> exists suffix, r0 = rc +:+ suffix).
    { induction items as [|item items IH]; intros rc r0 H0; simpl in H0.
      - injection H0 as <-. exists EmptyString. now rewrite append_nil_r.
      - destruct (dynamicStep rc item) as [r1|e] eqn:Hs; [| discriminate].
        cbn [bind] in H0. apply dynamicStep_appends in Hs as [s1 ->].
        apply IH in H0 as [s2 ->]. exists (s1 +:+ s2).
        now rewrite append_assoc. }
    destruct (Hloop _ _ _ H) as [suffix ->]. exists suffix. now split.
  - intros template -> ->. reflexivity.
  - intros ->. reflexivity.
Qed.

Lemma buildDynamicCmd_extends_template_witness :
  buildDynamicCmd sampleConstants (sampleLayer "Arnold" [] "1-10") = Ok "kick".
Proof.
  exact (proj1 (proj2 (buildDynamicCmd_extends_template sampleConstants
                         (sampleLayer "Arnold" [] "1-10")))
           "kick" eq_refl eq_refl).
Defined.

(** An optional flag that is not a solo flag and whose value is the empty
    string or [None] leaves the command as it is: neither the flag nor
    the value is written. *)
Theorem optional_empty_value_is_dropped :
  forall (flag : string) (value : PyVal) (isPath : bool) (rc : string),
  isSoloFlag flag = false ->
  value = PyNone \/ value = PyStr EmptyString ->
  dynamicStep rc (KFlag flag isPath false, value) = Ok rc.
Proof.
  intros flag value isPath rc Hsolo Hv. unfold dynamicStep, unpack_key.
  rewrite Hsolo.
  assert (Hf : formatValue flag value isPath false = value).
  { destruct Hv as [-> | ->]; unfold formatValue; simpl;
      now rewrite andb_false_r. }
  rewrite Hf.
  assert (He : in_empty_or_none value = true) by (destruct Hv as [-> | ->]; reflexivity).
  rewrite He. simpl. now rewrite andb_false_r.
Qed.

Lemma optional_empty_value_is_dropped_witness :
  dynamicStep "kick" (KFlag "--threads" false false, PyNone) = Ok "kick".
Proof.
  exact (optional_empty_value_is_dropped "--threads" PyNone false "kick"
           eq_refl (or_introl eq_refl)).
Defined.

(** With a template for the layer's type and only tuple keys in [cmd], the
    dynamic builder returns a command: a missing value, mandatory or not,
    never makes it raise. *)
Theorem buildDynamicCmd_never_raises :
  forall (C : ConstantsT) (ld : LayerData) (template : string),
  assoc (RENDER_CMDS C) (layerType ld) = Some template ->
  flag_keys_only (cmd ld) = true ->
  exists r : string, buildDynamicCmd C ld = Ok r.
Proof.
  intros C ld template Ht Hkeys. unfold buildDynamicCmd. rewrite Ht.
  generalize template. clear Ht template.
  induction (cmd ld) as [|[key value] items IH]; intros rc; simpl.
  - eexists. reflexivity.
  - destruct key as [k | flag isPath isMandatory]; [discriminate |].
    simpl in Hkeys. specialize (IH Hkeys).
    unfold dynamicStep, unpack_key.
    destruct (isSoloFlag flag); [apply IH |].
    destruct (isFlag flag && _); [apply IH |].
    destruct (negb _); apply IH.
Qed.

Lemma buildDynamicCmd_never_raises_witness :
  exists r : string,
    buildDynamicCmd sampleConstants
      (sampleLayer "Arnold" [(KFlag "-i" true true, PyNone)] "1-10") = Ok r.
Proof.
  exact (buildDynamicCmd_never_raises sampleConstants
           (sampleLayer "Arnold" [(KFlag "-i" true true, PyNone)] "1-10")
           "kick" eq_refl eq_refl).
Defined.

(** ** Tokens of a dynamic command *)

Lemma bind_ok_r (A : Type) (m : result A) : (x <- m ;; Ok x) = m.
Proof. destruct m; reflexivity. Qed.

(** Outside an escape, the state an escape returns to does not matter: it
    is set anew whenever an escape begins. *)
Lemma lex_escapedstate (input : string) :
  forall (state es1 es2 : LexState) (token : string) (quoted : bool),
  state <> InEscape ->
  lex state es1 token quoted input = lex state es2 token quoted input.
Proof.
  induction input as [|c rest IH]; intros state es1 es2 token quoted Hs.
  - destruct state; reflexivity.
  - destruct state; try congruence; simpl;
      repeat match goal with
             | |- context [if ?b then _ else _] => destruct b
             end;
      try reflexivity; apply IH; discriminate.
Qed.

(** Tokens of a text followed by a blank and more text: the tokens of the
    first, then the tokens of the second. *)
Lemma lex_then_blank (a b : string) :
  forall (state es : LexState) (token : string) (quoted : bool)
         (ta : list string),
  lex state es token quoted a = Ok ta ->
  lex state es token quoted (a +:+ String " " b) =
  (tb <- shlex_split b ;; Ok (ta ++ tb)).
Proof.
  induction a as [|c a IH]; intros state es token quoted ta H.
  - destruct state; try discriminate; simpl in *;
      destruct (nonempty token || quoted) eqn:E; injection H as <-;
      try reflexivity;
      rewrite (lex_escapedstate b InSpace es InSpace token quoted)
        by discriminate;
      apply orb_false_iff in E as [Et ->];
      destruct token; try discriminate;
      unfold shlex_split; now rewrite bind_ok_r.
  - revert H. destruct state; simpl;
      repeat match goal with
             | |- context [if ?b then _ else _] => destruct b
             end;
      try (intros H; now apply IH);
      (destruct (lex InSpace InSpace EmptyString false a) as [toks|e] eqn:E;
       [| discriminate]);
      cbn [bind]; intros H; injection H as <-;
      rewrite (IH _ _ _ _ _ E);
      destruct (shlex_split b); reflexivity.
Qed.

Lemma shlex_split_then_blank (a b : string) (ta : list string) :
  shlex_split a = Ok ta ->
  shlex_split (a +:+ String " " b) = (tb <- shlex_split b ;; Ok (ta ++ tb)).
Proof. apply lex_then_blank. Qed.

Lemma lex_plain_word (s : string) :
  forall (es : LexState) (token : string) (quoted : bool) (rest : string),
  all_chars plain_in_word s = true ->
  lex InWord es token quoted (s +:+ rest) =
  lex InWord es (token +:+ s) quoted rest.
Proof.
  induction s as [|c s IH]; intros es token quoted rest H; simpl in *.
  - now rewrite append_nil_r.
  - apply andb_true_iff in H as [Hc Hs]. unfold plain_in_word in Hc.
    apply andb_true_iff in Hc as [Hc He].
    apply andb_true_iff in Hc as [Hw Hq].
    apply negb_true_iff in Hw, Hq, He. rewrite Hw, Hq, He.
    rewrite (IH _ _ _ _ Hs). unfold snoc. now rewrite append_assoc.
Qed.

(** A bare word without blanks, quotes or backslashes is one token. *)
Lemma shlex_split_plain_word (s : string) :
  s <> EmptyString -> all_chars plain_in_word s = true ->
  shlex_split s = Ok [s].
Proof.
  intros Hne H. destruct s as [|c s]; [congruence |].
  simpl in H. apply andb_true_iff in H as [Hc Hs].
  unfold shlex_split. simpl. unfold plain_in_word in Hc.
  apply andb_true_iff in Hc as [Hc He].
  apply andb_true_iff in Hc as [Hw Hq].
  apply negb_true_iff in Hw, Hq, He. rewrite Hw, Hq, He.
  rewrite <- (append_nil_r s) at 1.
  rewrite (lex_plain_word s InSpace (String c EmptyString) false EmptyString Hs).
  reflexivity.
Qed.

Lemma lex_plain_quoted (s : string) :
  forall (es : LexState) (token : string) (quoted : bool) (rest : string),
  all_chars plain_in_quotes s = true ->
  lex (InQuote (ascii_of_nat 34)) es token quoted
      (s +:+ String (ascii_of_nat 34) rest) =
  lex InWord es (token +:+ s) true rest.
Proof.
  induction s as [|c s IH]; intros es token quoted rest H.
  - cbn. now rewrite append_nil_r.
  - cbn [all_chars] in H. apply andb_true_iff in H as [Hc Hs].
    unfold plain_in_quotes in Hc. apply andb_true_iff in Hc as [Hq He].
    apply negb_true_iff in Hq, He.
    change ((String c s) +:+ String (ascii_of_nat 34) rest)
      with (String c (s +:+ String (ascii_of_nat 34) rest)).
    cbn [lex]. rewrite Hq, He. cbn [andb].
    rewrite (IH _ _ _ _ Hs). unfold snoc. now rewrite append_assoc.
Qed.

(** A text without double quotes or backslashes, put between double
    quotes, is one token: the text itself. *)
Lemma shlex_split_quoted (s : string) :
  all_chars plain_in_quotes s = true ->
  shlex_split (dquote +:+ s +:+ dquote) = Ok [s].
Proof.
  intros H. unfold shlex_split, dquote.
  change (String (ascii_of_nat 34) EmptyString +:+
          s +:+ String (ascii_of_nat 34) EmptyString)
    with (String (ascii_of_nat 34) (s +:+ String (ascii_of_nat 34) EmptyString)).
  cbn [lex]. change (is_whitespace (ascii_of_nat 34)) with false.
  change (is_escape (ascii_of_nat 34)) with false.
  change (is_quote (ascii_of_nat 34)) with true. cbn iota.
  rewrite (lex_plain_quoted s InSpace EmptyString false EmptyString H).
  cbn [String.append lex]. now rewrite orb_true_r.
Qed.

Lemma all_chars_app (p : ascii -> bool) (a b : string) :
  all_chars p (a +:+ b) = all_chars p a && all_chars p b.
Proof.
  induction a as [|c a IH]; simpl; [reflexivity |].
  now rewrite IH, andb_assoc.
Qed.

Lemma all_chars_impl (p q : ascii -> bool) (s : string) :
  (forall c, p c = true -> q c = true) ->
  all_chars p s = true -> all_chars q s = true.
Proof.
  intros Hpq. induction s as [|c s IH]; simpl; [reflexivity |].
  intros H. apply andb_true_iff in H as [Hc Hs].
  now rewrite (Hpq c Hc), (IH Hs).
Qed.

Lemma word_is_plain (c : ascii) : is_word c = true -> plain_in_word c = true.
Proof.
  destruct c as [[] [] [] [] [] [] [] []]; intros H;
    reflexivity || discriminate H.
Qed.

Lemma dash_is_plain (c : ascii) : is_dash c = true -> plain_in_word c = true.
Proof.
  unfold is_dash. intros H. apply Ascii.eqb_eq in H. now subst c.
Qed.

Lemma flagBody_plain (dashes word : string) :
  flagBody dashes word ->
  dashes +:+ word <> EmptyString /\
  all_chars plain_in_word (dashes +:+ word) = true.
Proof.
  intros (Hd & Hda & Hw & Hwa). split.
  - destruct dashes; [congruence | discriminate].
  - rewrite all_chars_app.
    rewrite (all_chars_impl is_dash plain_in_word dashes dash_is_plain Hda).
    now rewrite (all_chars_impl is_word plain_in_word word word_is_plain Hwa).
Qed.

Lemma flagBody_isFlag (dashes word : string) :
  flagBody dashes word ->
  isFlag (dashes +:+ word) = true /\ isSoloFlag (dashes +:+ word) = false.
Proof.
  intros (Hd & Hda & Hw & Hwa). unfold isFlag, isSoloFlag.
  replace (dashes +:+ word) with (dashes +:+ word +:+ EmptyString)
    by now rewrite append_nil_r.
  rewrite (span_prefix is_dash dashes (word +:+ EmptyString) Hda
             (head_of_run is_word is_dash word _ Hw Hwa word_not_dash)).
  rewrite (span_prefix is_word word EmptyString Hwa I).
  rewrite (proj2 (nonempty_iff dashes) Hd), (proj2 (nonempty_iff word) Hw).
  split; reflexivity.
Qed.

(** A path written by the dynamic builder after a flag comes back from
    the split made by [buildLayer] as one token, blanks included: the
    tokens of the extended command are those of the command so far, the
    flag and the path. The path must be free of double quotes and
    backslashes. *)
Theorem quoted_path_is_one_token :
  forall (rc : string) (ta : list string) (dashes word path : string)
         (isMandatory : bool),
  shlex_split rc = Ok ta ->
  flagBody dashes word ->
  path <> EmptyString ->
  all_chars plain_in_quotes path = true ->
  exists r : string,
    dynamicStep rc (KFlag (dashes +:+ word) true isMandatory, PyStr path) = Ok r /\
    commandTokens (CmdStr r) = Ok (map PyStr (ta ++ [dashes +:+ word; path])).
Proof.
  intros rc ta dashes word path isMandatory Hrc Hbody Hne Hplain.
  destruct (flagBody_isFlag dashes word Hbody) as [Hflag Hsolo].
  destruct (flagBody_plain dashes word Hbody) as [Hfne Hfplain].
  assert (Hf : formatValue (dashes +:+ word) (PyStr path) true isMandatory =
               PyStr (dquote +:+ path +:+ dquote)).
  { unfold formatValue. simpl.
    destruct path; [congruence |]. simpl. now rewrite andb_false_r. }
  exists (rc +:+ String " " ((dashes +:+ word) +:+
            String " " (dquote +:+ path +:+ dquote))).
  split.
  - unfold dynamicStep, unpack_key. rewrite Hsolo, Hflag, Hf. reflexivity.
  - unfold commandTokens.
    rewrite (shlex_split_then_blank rc _ ta Hrc).
    rewrite (shlex_split_then_blank (dashes +:+ word) _ [dashes +:+ word]
               (shlex_split_plain_word _ Hfne Hfplain)).
    rewrite (shlex_split_quoted path Hplain). reflexivity.
Qed.

Lemma quoted_path_is_one_token_witness :
  exists r : string,
    dynamicStep "kick" (KFlag "-i" true true, PyStr "my scene.ass") = Ok r /\
    commandTokens (CmdStr r) = Ok [PyStr "kick"; PyStr "-i"; PyStr "my scene.ass"].
Proof.
  assert (Hbody : flagBody "-" "i") by (repeat split; discriminate).
  assert (Hne : "my scene.ass" <> EmptyString) by discriminate.
  exact (quoted_path_is_one_token "kick" ["kick"] "-" "i" "my scene.ass" true
           eq_refl Hbody Hne eq_refl).
Defined.

(** Without the path marking the same value is cut at its blank. *)
Example unquoted_value_is_split :
  (r <- dynamicStep "kick" (KFlag "-i" false true, PyStr "my scene.ass") ;;
   commandTokens (CmdStr r)) =
  Ok [PyStr "kick"; PyStr "-i"; PyStr "my"; PyStr "scene.ass"].
Proof. reflexivity. Qed.

(** A value holding a single quote character makes the split fail. *)
Example apostrophe_in_value_breaks_split :
  (r <- dynamicStep "kick" (KFlag "-n" false false, PyStr "it's") ;;
   commandTokens (CmdStr r)) =
  Raise (ValueError "No closing quotation").
Proof. reflexivity. Qed.

(** ** Named engine builders, both modes *)

(** The Maya, Nuke and Blender builders never raise in silent mode, and in
    normal mode they raise, each with its own message, just when the scene
    file is missing; otherwise both modes build the same list. *)
Theorem named_builders_raise_only_without_file :
  forall (C : ConstantsT) (ld : LayerData),
  (exists maya nuke blender : list PyVal,
     buildMayaCmd C ld true = Ok maya /\
     buildNukeCmd C ld true = Ok nuke /\
     buildBlenderCmd C ld true = Ok blender) /\
  buildMayaCmd C ld false =
    (if truthy (dict_get (cmd ld) "mayaFile" PyNone)
     then buildMayaCmd C ld true
     else Raise (ValueError "No Maya File provided. Cannot submit job.")) /\
  buildNukeCmd C ld false =
    (if truthy (dict_get (cmd ld) "nukeFile" PyNone)
     then buildNukeCmd C ld true
     else Raise (ValueError "No Nuke file provided. Cannot submit job.")) /\
  buildBlenderCmd C ld false =
    (if truthy (dict_get (cmd ld) "blenderFile" PyNone)
     then buildBlenderCmd C ld true
     else Raise (ValueError "No Blender file provided. Cannot submit job.")).
Proof.
  intros C ld. unfold buildMayaCmd, buildNukeCmd, buildBlenderCmd.
  rewrite !andb_false_r. repeat split.
  - do 3 eexists. repeat split; reflexivity.
  - destruct (truthy (dict_get (cmd ld) "mayaFile" PyNone)); reflexivity.
  - destruct (truthy (dict_get (cmd ld) "nukeFile" PyNone)); reflexivity.
  - destruct (truthy (dict_get (cmd ld) "blenderFile" PyNone)); reflexivity.
Qed.

(** A Nuke argument list ends with [-x] and the script, and carries the
    write nodes after [-X] just when they are given. *)
Theorem nuke_command_shape :
  forall (C : ConstantsT) (ld : LayerData) (silent : bool) (args : list PyVal),
  buildNukeCmd C ld silent = Ok args ->
  args =
  [PyStr (NUKE_RENDER_CMD C); PyStr "-F"; PyStr (FRAME_TOKEN C)]
  ++ (if truthy (dict_get (cmd ld) "writeNodes" PyNone)
      then [PyStr "-X"; dict_get (cmd ld) "writeNodes" PyNone] else [])
  ++ [PyStr "-x"; dict_get (cmd ld) "nukeFile" PyNone].
Proof.
  intros C ld silent args. unfold buildNukeCmd.
  destruct (negb _ && negb silent); [discriminate |].
  intros H. injection H as <-.
  destruct (truthy (dict_get (cmd ld) "writeNodes" PyNone)); reflexivity.
Qed.

Lemma nuke_command_shape_witness :
  [PyStr "nuke"; PyStr "-F"; PyStr "#IFRAME#"; PyStr "-x"; PyStr "comp.nk"] =
  [PyStr "nuke"; PyStr "-F"; PyStr "#IFRAME#"] ++ [] ++ [PyStr "-x"; PyStr "comp.nk"].
Proof.
  exact (nuke_command_shape sampleConstants
           (sampleLayer "Nuke" [(KName "nukeFile", PyStr "comp.nk")] "1-10")
           false _ eq_refl).
Defined.

(** The first argument of a Blender command is the layer's
    [blenderExecutable] entry whenever the key is there, whatever its
    value, and the configured default only when the key is absent; the
    scene file is the fourth argument. *)
Theorem blender_executable_fallback :
  forall (C : ConstantsT) (ld : LayerData) (silent : bool) (args : list PyVal),
  buildBlenderCmd C ld silent = Ok args ->
  nth_error args 0 =
    Some (match dict_find (cmd ld) "blenderExecutable" with
          | Some v => v
          | None => PyStr (BLENDER_RENDER_CMD C)
          end) /\
  nth_error args 3 = Some (dict_get (cmd ld) "blenderFile" PyNone).
Proof.
  intros C ld silent args. unfold buildBlenderCmd.
  destruct (negb _ && negb silent); [discriminate |].
  intros H. injection H as <-. unfold blenderBaseArgs.
  destruct (truthy (dict_get (cmd ld) "useCompositing" (PyBool true)));
  destruct (truthy (dict_get (cmd ld) "outputPath" PyNone));
  destruct (truthy (dict_get (cmd ld) "outputFormat" PyNone));
  split; reflexivity.
Qed.

Lemma blender_executable_fallback_witness :
  nth_error
    [PyNone; PyStr "-b"; PyStr "-noaudio"; PyStr "scene.blend";
     PyStr "--use-compositing"; PyStr "-f"; PyStr "#IFRAME#"] 0 = Some PyNone /\
  nth_error
    [PyNone; PyStr "-b"; PyStr "-noaudio"; PyStr "scene.blend";
     PyStr "--use-compositing"; PyStr "-f"; PyStr "#IFRAME#"] 3 =
  Some (PyStr "scene.blend").
Proof.
  exact (blender_executable_fallback sampleConstants
           (sampleLayer "Blender"
              [(KName "blenderFile", PyStr "scene.blend");
               (KName "blenderExecutable", PyNone)] "50")
           false _ eq_refl).
Defined.

(** ** Dispatch on the layer type *)

Lemma dispatch_shell (C : ConstantsT) (JT : JobTypesT) (ld : LayerData)
    (silent : bool) :
  layerType ld = SHELL JT ->
  mem (SHELL JT) (FROM_CONFIG_FILE JT) = false ->
  String.eqb (SHELL JT) (MAYA JT) = false ->
  buildLayerCommand C JT ld silent =
  (l <- buildShellCmd ld silent ;; Ok (CmdList l)).
Proof.
  intros Ht Hm Hne. unfold buildLayerCommand.
  rewrite Ht, Hm, Hne, String.eqb_refl. reflexivity.
Qed.

(** A shell layer without a [commandTextBox] entry gives the empty list in
    silent mode and raises [KeyError] in normal mode; with an entry that
    is empty or [None] it gives the empty list in both modes. *)
Theorem shell_without_command :
  forall (C : ConstantsT) (JT : JobTypesT) (ld : LayerData),
  layerType ld = SHELL JT ->
  mem (SHELL JT) (FROM_CONFIG_FILE JT) = false ->
  String.eqb (SHELL JT) (MAYA JT) = false ->
  (dict_find (cmd ld) "commandTextBox" = None ->
   buildLayerCommand C JT ld true = Ok (CmdList []) /\
   buildLayerCommand C JT ld false = Raise (KeyError "commandTextBox")) /\
  (forall (v : PyVal) (silent : bool),
     dict_find (cmd ld) "commandTextBox" = Some v -> truthy v = false ->
     buildLayerCommand C JT ld silent = Ok (CmdList [])).
Proof.
  intros C JT ld Ht Hm Hne. split.
  - intros Hnone. rewrite !(dispatch_shell C JT ld _ Ht Hm Hne).
    unfold buildShellCmd, dict_get, dict_index. rewrite Hnone.
    split; reflexivity.
  - intros v silent Hv Hfalse. rewrite (dispatch_shell C JT ld _ Ht Hm Hne).
    unfold buildShellCmd, dict_get, dict_index. rewrite Hv.
    destruct silent; cbn [bind]; rewrite Hfalse; reflexivity.
Qed.

Lemma shell_without_command_witness :
  buildLayerCommand sampleConstants sampleJobTypes (sampleLayer "Shell" [] "1") true =
  Ok (CmdList []) /\
  buildLayerCommand sampleConstants sampleJobTypes (sampleLayer "Shell" [] "1") false =
  Raise (KeyError "commandTextBox").
Proof.
  exact (proj1 (shell_without_command sampleConstants sampleJobTypes
                  (sampleLayer "Shell" [] "1") eq_refl eq_refl eq_refl)
           eq_refl).
Defined.

(** A layer type that is neither configured nor one of the four named
    engines raises [ValueError] in normal mode and gives the text
    [Error: unrecognized layer type <type>] in silent mode. *)
Theorem unrecognized_layer_type :
  forall (C : ConstantsT) (JT : JobTypesT) (ld : LayerData),
  mem (layerType ld) (FROM_CONFIG_FILE JT) = false ->
  layerType ld <> MAYA JT -> layerType ld <> SHELL JT ->
  layerType ld <> NUKE JT -> layerType ld <> BLENDER JT ->
  buildLayerCommand C JT ld false =
    Raise (ValueError ("unrecognized layer type " +:+ layerType ld)) /\
  buildLayerCommand C JT ld true =
    Ok (CmdStr ("Error: unrecognized layer type " +:+ layerType ld)).
Proof.
  intros C JT ld Hm H1 H2 H3 H4. unfold buildLayerCommand. rewrite Hm.
  apply String.eqb_neq in H1, H2, H3, H4. rewrite H1, H2, H3, H4.
  split; reflexivity.
Qed.

Lemma unrecognized_layer_type_witness :
  buildLayerCommand sampleConstants sampleJobTypes
    (sampleLayer "Houdini" [] "1") false =
    Raise (ValueError "unrecognized layer type Houdini") /\
  buildLayerCommand sampleConstants sampleJobTypes
    (sampleLayer "Houdini" [] "1") true =
    Ok (CmdStr "Error: unrecognized layer type Houdini").
Proof.
  refine (unrecognized_layer_type sampleConstants sampleJobTypes
            (sampleLayer "Houdini" [] "1") eq_refl _ _ _ _); discriminate.
Defined.

(** What kind of command comes back: a string only for a configured type
    or, in silent mode, as the text for an unrecognized type; a list only
    for one of the four named engines that is not a configured type. *)
Theorem command_kind_follows_type :
  forall (C : ConstantsT) (JT : JobTypesT) (ld : LayerData) (silent : bool),
  (forall s : string,
     buildLayerCommand C JT ld silent = Ok (CmdStr s) ->
     mem (layerType ld) (FROM_CONFIG_FILE JT) = true \/
     (silent = true /\
      s = "Error: unrecognized layer type " +:+ layerType ld)) /\
  (forall args : list PyVal,
     buildLayerCommand C JT ld silent = Ok (CmdList args) ->
     mem (layerType ld) (FROM_CONFIG_FILE JT) = false /\
     (layerType ld = MAYA JT \/ layerType ld = SHELL JT \/
      layerType ld = NUKE JT \/ layerType ld = BLENDER JT)).
Proof.
  intros C JT ld silent. unfold buildLayerCommand.
  destruct (mem (layerType ld) (FROM_CONFIG_FILE JT)).
  - split; [intros; now left |].
    intros args. destruct (buildDynamicCmd C ld); discriminate.
  - destruct (String.eqb_spec (layerType ld) (MAYA JT)) as [E1 | N1].
    { split; [| intros; split; [reflexivity | tauto]].
      intros s. destruct (buildMayaCmd C ld silent); discriminate. }
    destruct (String.eqb_spec (layerType ld) (SHELL JT)) as [E2 | N2].
    { split; [| intros; split; [reflexivity | tauto]].
      intros s. destruct (buildShellCmd ld silent); discriminate. }
    destruct (String.eqb_spec (layerType ld) (NUKE JT)) as [E3 | N3].
    { split; [| intros; split; [reflexivity | tauto]].
      intros s. destruct (buildNukeCmd C ld silent); discriminate. }
    destruct (String.eqb_spec (layerType ld) (BLENDER JT)) as [E4 | N4].
    { split; [| intros; split; [reflexivity | tauto]].
      intros s. destruct (buildBlenderCmd C ld silent); discriminate. }
    destruct silent; split; try discriminate.
    intros s H. injection H as <-. right. now split.
Qed.

(** A configured type is built by the dynamic builder in both modes, also
    when it bears the name of a named engine. *)
Theorem configured_type_takes_precedence :
  forall (C : ConstantsT) (JT : JobTypesT) (ld : LayerData) (silent : bool),
  mem (layerType ld) (FROM_CONFIG_FILE JT) = true ->
  buildLayerCommand C JT ld silent =
  (s <- buildDynamicCmd C ld ;; Ok (CmdStr s)).
Proof.
  intros C JT ld silent Hm. unfold buildLayerCommand. now rewrite Hm.
Qed.

Lemma configured_type_takes_precedence_witness :
  buildLayerCommand (mkConstants [("Maya", "mayabatch")] "Render" "nuke" "blender"
                       "#IFRAME#" "#FRAME_START#" "#FRAME_END#")
    (mkJobTypes ["Maya"] "Maya" "Shell" "Nuke" "Blender")
    (sampleLayer "Maya" [] "1-10") false =
  Ok (CmdStr "mayabatch").
Proof.
  exact (configured_type_takes_precedence
           (mkConstants [("Maya", "mayabatch")] "Render" "nuke" "blender"
              "#IFRAME#" "#FRAME_START#" "#FRAME_END#")
           (mkJobTypes ["Maya"] "Maya" "Shell" "Nuke" "Blender")
           (sampleLayer "Maya" [] "1-10") false eq_refl).
Defined.

(** ** Layer assembler, the other fields and the failures *)

Lemma buildLayer_described (gs : list string)
    (gso : string -> string -> result PyVal)
    (fs : string -> result PrimFloat.float) (ld : LayerData)
    (command : Command) (last : option Layer) (layer : Layer) :
  buildLayer gs gso fs ld command last = Ok layer -> describedBy ld layer.
Proof.
  unfold buildLayer.
  destruct (resolveThreadable gs gso fs ld) as [th|e]; [| discriminate].
  destruct (commandTokens command) as [toks|e]; [| discriminate].
  cbn [bind]. intros H. injection H as <-. unfold describedBy.
  destruct (services ld), (limits ld), (truthy (dependType ld)), last;
    try destruct (PyVal_eqb (dependType ld) (PyStr "Layer"));
    repeat split; reflexivity.
Qed.

(** The layer built carries the name, chunk and range of its description,
    its cores only under [overrideCores], its first service whatever the
    registry lists, and its limits; the cores are left unset otherwise. *)
Theorem buildLayer_passes_fields :
  forall (gs : list string) (gso : string -> string -> result PyVal)
    (fs : string -> result PrimFloat.float)
         (ld : LayerData) (command : Command) (last : option Layer)
         (layer : Layer),
  buildLayer gs gso fs ld command last = Ok layer ->
  layer_name layer = name ld /\
  layer_chunk layer = chunk ld /\
  layer_range layer = layerRange ld /\
  (overrideCores ld = true -> layer_cores layer = Some (cores ld)) /\
  (overrideCores ld = false -> layer_cores layer = None) /\
  layer_service layer = hd_error (services ld) /\
  layer_limits layer = limits ld.
Proof.
  intros gs gso fs ld command last layer H.
  destruct (buildLayer_described gs gso fs ld command last layer H)
    as (Hn & Hc & Hr & Hcores & Hs & Hl).
  repeat split; try assumption; intros Ho; now rewrite Ho in Hcores.
Qed.

Lemma buildLayer_passes_fields_witness :
  layer_cores
    (mkLayer "layer" [PyStr "echo"] 1 None "1" (PyBool true) (Some "maya") [] []) =
  None.
Proof.
  exact (proj1 (proj2 (proj2 (proj2 (proj2
           (buildLayer_passes_fields sampleServices sampleServiceOption sampleFloatOfStr
              (serviceLayer ["maya"; "shell"]) (CmdList [PyStr "echo"]) None _
              eq_refl))))) eq_refl).
Defined.

Lemma resolveThreadable_raises (gs : list string)
    (gso : string -> string -> result PyVal)
    (fs : string -> result PrimFloat.float) (ld : LayerData) (e : exn) :
  resolveThreadable gs gso fs ld = Raise e <->
  (overrideCores ld = true /\ py_float fs (cores ld) = Raise e) \/
  (overrideCores ld = false /\
   exists (first : string) (rest : list string),
     services ld = first :: rest /\ In first gs /\
     gso first "threadable" = Raise e).
Proof.
  unfold resolveThreadable. split.
  - destruct (overrideCores ld).
    + destruct (py_float fs (cores ld)) as [f|e0]; [discriminate |].
      cbn [bind]. intros H. injection H as ->. left. now split.
    + destruct (services ld) as [|first rest]; [discriminate |].
      destruct (mem first gs) eqn:E; [| discriminate].
      intros H. right. split; [reflexivity |]. exists first, rest.
      repeat split; [now apply mem_In | exact H].
  - intros [(-> & ->) | (-> & first & rest & -> & Hin & H)]; [reflexivity |].
    apply mem_In in Hin. now rewrite Hin.
Qed.

(** [buildLayer] fails in three ways only: under [overrideCores], when
    [float(cores)] raises; without it, when the registry lists the first
    service and the lookup of its [threadable] option raises; or, the
    flag once resolved, when the command is a string that [shlex.split]
    rejects. The error is then that one. *)
Theorem buildLayer_failures :
  forall (gs : list string) (gso : string -> string -> result PyVal)
         (fs : string -> result PrimFloat.float)
         (ld : LayerData) (command : Command) (last : option Layer) (e : exn),
  buildLayer gs gso fs ld command last = Raise e <->
  (overrideCores ld = true /\ py_float fs (cores ld) = Raise e) \/
  (overrideCores ld = false /\
   exists (first : string) (rest : list string),
     services ld = first :: rest /\ In first gs /\
     gso first "threadable" = Raise e) \/
  ((exists th : PyVal, resolveThreadable gs gso fs ld = Ok th) /\
   exists s : string, command = CmdStr s /\ shlex_split s = Raise e).
Proof.
  intros gs gso fs ld command last e.
  rewrite <- or_assoc. rewrite <- resolveThreadable_raises.
  unfold buildLayer. split.
  - destruct (resolveThreadable gs gso fs ld) as [th|e0]; cbn [bind].
    + destruct command as [s | args]; cbn [commandTokens bind].
      * destruct (shlex_split s) as [toks|e1] eqn:Es; cbn [bind];
          [discriminate |].
        intros H. injection H as ->. right. split; [now exists th |].
        exists s. now split.
      * discriminate.
    + intros H. injection H as ->. now left.
  - intros [-> | ([th ->] & s & -> & Hs)]; [reflexivity |].
    cbn [bind commandTokens]. now rewrite Hs.
Qed.

(** The integer cores that [float] takes are those that do not round
    beyond the largest double. *)
Example float_of_int_largest :
  (exists f : PrimFloat.float, float_of_int (2 ^ 1024 - 2 ^ 970 - 1) = Ok f) /\
  float_of_int (2 ^ 1024 - 2 ^ 970) =
  Raise (OverflowError "int too large to convert to float").
Proof. split; [eexists |]; reflexivity. Qed.

(** ** Job assembler, the outline and the failures *)

Lemma assembleLayers_outline (C : ConstantsT) (JT : JobTypesT)
    (gs : list string) (gso : string -> string -> result PyVal)
    (fs : string -> result PrimFloat.float)
    (lds : list LayerData) :
  forall (ol : Outline) (last : option Layer) (ol' : Outline),
  assembleLayers C JT gs gso fs ol last lds = Ok ol' ->
  ol_name ol' = ol_name ol /\ ol_shot ol' = ol_shot ol /\
  ol_show ol' = ol_show ol /\ ol_user ol' = ol_user ol /\
  ol_facility ol' = ol_facility ol /\
  exists ls : list Layer,
    ol_layers ol' = ol_layers ol ++ ls /\ Forall2 describedBy lds ls.
Proof.
  induction lds as [|ld lds IH]; intros ol last ol' H; simpl in H.
  - injection H as <-. repeat split. exists []. split;
      [now rewrite app_nil_r | constructor].
  - destruct (buildLayerCommand C JT ld false) as [command|e]; [| discriminate].
    cbn [bind] in H.
    destruct (buildLayer gs gso fs ld command last) as [layer|e] eqn:Hl;
      [| discriminate].
    cbn [bind] in H.
    apply IH in H as (Hn & Hs & Hw & Hu & Hf & ls & Hls & Hall).
    simpl in *. repeat split; try assumption.
    exists (layer :: ls). split.
    + rewrite Hls. now rewrite <- app_assoc.
    + constructor; [| exact Hall].
      exact (buildLayer_described gs gso fs ld command last layer Hl).
Qed.

(** The outline of an assembled job bears the name, shot, show and user of
    the job and its facility if it has one, and holds one layer per
    description, in the order of the job, each carrying the fields of its
    description. *)
Theorem assembled_outline_follows_job :
  forall (C : ConstantsT) (JT : JobTypesT)
         (gs : list string) (gso : string -> string -> result PyVal)
    (fs : string -> result PrimFloat.float)
         (jd : JobData) (lds : list LayerData) (ol : Outline),
  job_layers jd = Some lds ->
  assembleJob C JT gs gso fs jd = Ok ol ->
  job_name jd = Some (ol_name ol) /\
  job_shot jd = Some (ol_shot ol) /\
  job_show jd = Some (ol_show ol) /\
  job_username jd = Some (ol_user ol) /\
  ol_facility ol = job_facility jd /\
  Forall2 describedBy lds (ol_layers ol) /\
  map layer_name (ol_layers ol) = map name lds.
Proof.
  intros C JT gs gso fs jd lds ol Hl H. unfold assembleJob in H. rewrite Hl in H.
  destruct (job_name jd) as [n|], (job_shot jd) as [sh|],
           (job_show jd) as [sw|], (job_username jd) as [u|];
    try discriminate.
  cbn [job_index bind] in H.
  destruct (assembleLayers C JT gs gso fs (mkOutline n sh sw u [] None) None lds)
    as [ol0|e] eqn:Ha; [| discriminate].
  cbn [bind] in H.
  apply assembleLayers_outline in Ha
    as (Hn & Hs & Hw & Hu & Hf & ls & Hls & Hall).
  simpl in *. subst ls.
  assert (Hnames : map layer_name (ol_layers ol0) = map name lds).
  { clear -Hall. induction Hall as [|ld l lds ls Hd _ IH]; simpl;
      [reflexivity |].
    destruct Hd as (-> & _). now rewrite IH. }
  destruct (job_facility jd); injection H as <-; simpl;
    repeat split; congruence.
Qed.

Lemma assembled_outline_follows_job_witness :
  exists ol : Outline,
    assembleJob sampleConstants sampleJobTypes sampleServices sampleServiceOption sampleFloatOfStr
      (sampleJob threeLayers) = Ok ol /\
    map layer_name (ol_layers ol) = ["one"; "two"; "three"].
Proof.
  eexists. split; [reflexivity |].
  exact (proj2 (proj2 (proj2 (proj2 (proj2 (proj2
           (assembled_outline_follows_job sampleConstants sampleJobTypes
              sampleServices sampleServiceOption sampleFloatOfStr (sampleJob threeLayers)
              threeLayers _ eq_refl eq_refl))))))).
Defined.

(** A job without layers is assembled and handed to the submission
    interface like any other: an outline with no layer is launched. *)
Theorem job_without_layers_is_launched :
  forall (C : ConstantsT) (JT : JobTypesT)
         (gs : list string) (gso : string -> string -> result PyVal)
    (fs : string -> result PrimFloat.float)
         (Handle : Type) (launch : Outline -> result Handle)
         (n sh sw u : string) (facility : option string) (log : Launches),
  submitJob C JT gs gso fs Handle launch (fullJob n sh sw u [] facility) log =
  (launch (mkOutline n sh sw u [] facility),
   log ++ [mkOutline n sh sw u [] facility]).
Proof.
  intros. unfold submitJob, assembleJob, fullJob. simpl.
  destruct facility; reflexivity.
Qed.

Lemma assembleLayers_app (C : ConstantsT) (JT : JobTypesT)
    (gs : list string) (gso : string -> string -> result PyVal)
    (fs : string -> result PrimFloat.float)
    (pre rest : list LayerData) :
  forall (ol : Outline) (last : option Layer) (ol1 : Outline),
  assembleLayers C JT gs gso fs ol last pre = Ok ol1 ->
  exists last1 : option Layer,
    assembleLayers C JT gs gso fs ol last (pre ++ rest) =
    assembleLayers C JT gs gso fs ol1 last1 rest.
Proof.
  induction pre as [|ld pre IH]; intros ol last ol1 H; simpl in H.
  - injection H as <-. exists last. reflexivity.
  - simpl.
    destruct (buildLayerCommand C JT ld false) as [command|e]; [| discriminate].
    cbn [bind] in *.
    destruct (buildLayer gs gso fs ld command last) as [layer|e]; [| discriminate].
    cbn [bind] in *. exact (IH _ _ _ H).
Qed.

(** The error of a job is the error of its first layer that fails: when
    the layers before a layer assemble and the command of that layer
    raises, [submitJob] raises that very error and launches nothing,
    whatever the layers after it are. *)
Theorem first_failing_layer_decides :
  forall (C : ConstantsT) (JT : JobTypesT)
         (gs : list string) (gso : string -> string -> result PyVal)
    (fs : string -> result PrimFloat.float)
         (Handle : Type) (launch : Outline -> result Handle)
         (n sh sw u : string) (facility : option string)
         (pre post : list LayerData) (ld : LayerData) (ol : Outline)
         (e : exn) (log : Launches),
  assembleJob C JT gs gso fs (fullJob n sh sw u pre facility) = Ok ol ->
  buildLayerCommand C JT ld false = Raise e ->
  submitJob C JT gs gso fs Handle launch
    (fullJob n sh sw u (pre ++ ld :: post) facility) log = (Raise e, log).
Proof.
  intros C JT gs gso fs Handle launch n sh sw u facility pre post ld ol e log
         Hpre Hraise.
  unfold submitJob, assembleJob, fullJob in *. simpl in *.
  destruct (assembleLayers C JT gs gso fs (mkOutline n sh sw u [] None) None pre)
    as [ol1|e1] eqn:Ha; [| discriminate].
  destruct (assembleLayers_app C JT gs gso fs pre (ld :: post) _ _ _ Ha)
    as [last1 ->].
  simpl. rewrite Hraise. reflexivity.
Qed.

Lemma first_failing_layer_decides_witness :
  submitJob sampleConstants sampleJobTypes sampleServices sampleServiceOption sampleFloatOfStr
    nat sampleLaunch
    (fullJob "job" "shot01" "show" "artist"
       ([shellLayer "one" "echo 1" PyNone] ++
        mayaNoFile :: [sampleLayer "Houdini" [] "1"]) None) [] =
  (Raise (ValueError "No Maya File provided. Cannot submit job."), []).
Proof.
  exact (first_failing_layer_decides sampleConstants sampleJobTypes
           sampleServices sampleServiceOption sampleFloatOfStr nat sampleLaunch
           "job" "shot01" "show" "artist" None
           [shellLayer "one" "echo 1" PyNone] [sampleLayer "Houdini" [] "1"]
           mayaNoFile _ _ [] eq_refl eq_refl).
Defined.

(** A job dictionary that lacks one of the keys [name], [shot], [show],
    [username] and [layers] makes [submitJob] raise [KeyError] for the
    first of them, in that order, before any layer is looked at, and
    nothing is launched. *)
Theorem missing_job_key :
  forall (C : ConstantsT) (JT : JobTypesT)
         (gs : list string) (gso : string -> string -> result PyVal)
    (fs : string -> result PrimFloat.float)
         (Handle : Type) (launch : Outline -> result Handle)
         (jd : JobData) (log : Launches) (key : string),
  firstMissingKey jd = Some key ->
  submitJob C JT gs gso fs Handle launch jd log = (Raise (KeyError key), log).
Proof.
  intros C JT gs gso fs Handle launch jd log key. unfold firstMissingKey.
  unfold submitJob, assembleJob.
  destruct (job_name jd), (job_shot jd), (job_show jd), (job_username jd),
           (job_layers jd); intros H; try discriminate;
    injection H as <-; reflexivity.
Qed.

Lemma missing_job_key_witness :
  submitJob sampleConstants sampleJobTypes sampleServices sampleServiceOption sampleFloatOfStr
    nat sampleLaunch
    (mkJobData (Some "job") None (Some "show") None (Some [mayaNoFile]) None) [] =
  (Raise (KeyError "shot"), []).
Proof.
  exact (missing_job_key sampleConstants sampleJobTypes sampleServices
           sampleServiceOption sampleFloatOfStr nat sampleLaunch
           (mkJobData (Some "job") None (Some "show") None (Some [mayaNoFile]) None)
           [] "shot" eq_refl).
Defined.

(** ** The Blender scripts *)

Lemma lstrip_id (c : ascii) (s : string) :
  first_char s <> Some c -> lstrip c s = s.
Proof.
  destruct s as [|x t]; simpl; [reflexivity |].
  intros H. destruct (Ascii.eqb_spec x c) as [-> | _]; [congruence | reflexivity].
Qed.

Lemma rstrip_id (c : ascii) (s : string) :
  last_char s <> Some c -> rstrip c s = s.
Proof.
  induction s as [|x t IH]; [reflexivity |].
  intros H. cbn [rstrip]. destruct t as [|y t'].
  - simpl in *. destruct (Ascii.eqb_spec x c) as [-> | _];
      [congruence | reflexivity].
  - rewrite IH by exact H. reflexivity.
Qed.

Lemma rstrip_snoc (c : ascii) (s : string) :
  rstrip c (s +:+ String c EmptyString) = rstrip c s.
Proof.
  induction s as [|x t IH].
  - simpl. now rewrite Ascii.eqb_refl.
  - cbn [String.append rstrip]. now rewrite IH.
Qed.

Lemma unquotedEnds_strip (c : ascii) (path : string) :
  is_quote c = true -> unquotedEnds path ->
  lstrip c path = path /\ rstrip c path = path.
Proof.
  intros Hc [Hfirst Hlast]. split.
  - apply lstrip_id. intros H. apply Hfirst in H. congruence.
  - apply rstrip_id. intros H. apply Hlast in H. congruence.
Qed.

Lemma wrapper_undoes_quoting_aux (path : string) :
  unquotedEnds path ->
  strip "'" (strip (ascii_of_nat 34) (dquote +:+ path +:+ dquote)) = path.
Proof.
  intros Hends.
  destruct (unquotedEnds_strip (ascii_of_nat 34) path eq_refl Hends) as [Hl Hr].
  destruct (unquotedEnds_strip "'" path eq_refl Hends) as [Hl' Hr'].
  assert (Hdq : strip (ascii_of_nat 34) (dquote +:+ path +:+ dquote) = path).
  { unfold strip, dquote. cbn [String.append lstrip].
    rewrite Ascii.eqb_refl. destruct path as [|x t].
    - reflexivity.
    - assert (Hx : lstrip (ascii_of_nat 34)
                     (String x t +:+ String (ascii_of_nat 34) EmptyString) =
                   String x t +:+ String (ascii_of_nat 34) EmptyString).
      { apply lstrip_id. simpl. intros H. injection H as ->.
        destruct Hends as [Hfirst _]. specialize (Hfirst _ eq_refl).
        discriminate. }
      rewrite Hx, rstrip_snoc. exact Hr. }
  rewrite Hdq. unfold strip. now rewrite Hl', Hr'.
Qed.

(** The quotes that [submit_job.py] puts around the scene path are taken
    off again by the wrapper, which gets the path back as it was, as long
    as the path neither begins nor ends with a quote character. *)
Theorem wrapper_undoes_quoting :
  forall path : string,
  unquotedEnds path ->
  strip "'" (strip (ascii_of_nat 34) (dquote +:+ path +:+ dquote)) = path.
Proof. exact wrapper_undoes_quoting_aux. Qed.

Lemma wrapper_undoes_quoting_witness :
  strip "'" (strip (ascii_of_nat 34)
               (dquote +:+ "/shows/my show/scene.blend" +:+ dquote)) =
  "/shows/my show/scene.blend".
Proof.
  refine (wrapper_undoes_quoting "/shows/my show/scene.blend" _).
  split; intros c H; injection H as <-; reflexivity.
Defined.

(** A path that itself ends with a quote loses it. *)
Example wrapper_strips_own_quotes :
  strip "'" (strip (ascii_of_nat 34) (dquote +:+ "it's mine'" +:+ dquote)) =
  "it's mine".
Proof. reflexivity. Qed.

(** The wrapper starts Blender at most once, and only when both
    environment values are integers, at least three arguments are given
    and both files exist; the command then renders the frames from the
    start frame to start + chunk - 1. *)
Theorem wrapper_call_conditions :
  forall (environ : string -> option string) (py_int : string -> Z + string)
         (path_exists : string -> bool)
         (subprocess_call : list string -> Z + string)
         (argv cmd : list string),
  In cmd (calls (wrapperMain environ py_int path_exists subprocess_call argv)) ->
  exists (script blender_exe blend_file scene : string) (rest : list string)
         (start_frame chunk_size : Z),
    argv = script :: blender_exe :: blend_file :: scene :: rest /\
    py_int (environ_get environ "CUE_IFRAME" "1") = inl start_frame /\
    py_int (environ_get environ "CUE_CHUNK" "1") = inl chunk_size /\
    path_exists blender_exe = true /\
    path_exists (strip "'" (strip (ascii_of_nat 34) blend_file)) = true /\
    cmd = wrapperCommand blender_exe
            (strip "'" (strip (ascii_of_nat 34) blend_file)) scene
            start_frame (start_frame + chunk_size - 1)
            (match rest with
             | flag :: _ => String.eqb (lower flag) "true"
             | [] => false
             end) /\
    calls (wrapperMain environ py_int path_exists subprocess_call argv) = [cmd].
Proof.
  intros environ py_int path_exists subprocess_call argv cmd.
  unfold wrapperMain, wrapperFrames.
  destruct (py_int (environ_get environ "CUE_IFRAME" "1")) as [start|e];
    [| intros []].
  destruct (py_int (environ_get environ "CUE_CHUNK" "1")) as [chunk|e];
    [| intros []].
  destruct argv as [|script [|exe [|file [|scene rest]]]]; try (intros []).
  destruct (path_exists exe) eqn:He; [| intros []]. cbn [negb].
  destruct (path_exists (strip "'" (strip (ascii_of_nat 34) file))) eqn:Hf;
    [| intros []]. cbn [negb].
  destruct (subprocess_call _) as [ret|e]; cbn [calls];
    intros [<- | []]; exists script, exe, file, scene, rest, start, chunk;
    repeat split; assumption.
Qed.

Lemma wrapper_call_conditions_witness :
  exists (script blender_exe blend_file scene : string) (rest : list string)
         (start_frame chunk_size : Z),
    ["w.py"; "blender"; "scene.blend"; "Scene"; "TRUE"] =
      script :: blender_exe :: blend_file :: scene :: rest /\
    sampleInt (environ_get sampleEnviron "CUE_IFRAME" "1") = inl start_frame /\
    sampleInt (environ_get sampleEnviron "CUE_CHUNK" "1") = inl chunk_size /\
    sampleExists blender_exe = true /\
    sampleExists (strip "'" (strip (ascii_of_nat 34) blend_file)) = true /\
    ["blender"; "-b"; "scene.blend"; "-S"; "Scene"; "-s"; "11"; "-e"; "15";
     "--use-compositing"; "-a"] =
      wrapperCommand blender_exe
        (strip "'" (strip (ascii_of_nat 34) blend_file)) scene
        start_frame (start_frame + chunk_size - 1)
        (match rest with
         | flag :: _ => String.eqb (lower flag) "true"
         | [] => false
         end) /\
    calls (wrapperMain sampleEnviron sampleInt sampleExists sampleCall
             ["w.py"; "blender"; "scene.blend"; "Scene"; "TRUE"]) =
    [["blender"; "-b"; "scene.blend"; "-S"; "Scene"; "-s"; "11"; "-e"; "15";
      "--use-compositing"; "-a"]].
Proof.
  exact (wrapper_call_conditions sampleEnviron sampleInt sampleExists sampleCall
           ["w.py"; "blender"; "scene.blend"; "Scene"; "TRUE"]
           ["blender"; "-b"; "scene.blend"; "-S"; "Scene"; "-s"; "11"; "-e"; "15";
            "--use-compositing"; "-a"]
           (or_introl eq_refl)).
Defined.

(** The wrapper exits with 0 only when Blender was started and returned
    0; whenever Blender is not started, or cannot be run, it exits with 1,
    and when Blender returns a code the wrapper exits with that code. *)
Theorem wrapper_exit_code :
  forall (environ : string -> option string) (py_int : string -> Z + string)
         (path_exists : string -> bool)
         (subprocess_call : list string -> Z + string)
         (argv : list string),
  let run := wrapperMain environ py_int path_exists subprocess_call argv in
  (calls run = [] /\ exit_code run = 1%Z) \/
  (exists cmd : list string,
     calls run = [cmd] /\
     match subprocess_call cmd with
     | inl ret => exit_code run = ret
     | inr _ => exit_code run = 1%Z
     end).
Proof.
  intros environ py_int path_exists subprocess_call argv.
  unfold wrapperMain, wrapperFrames.
  destruct (py_int (environ_get environ "CUE_IFRAME" "1")) as [start|e];
    [| now left].
  destruct (py_int (environ_get environ "CUE_CHUNK" "1")) as [chunk|e];
    [| now left].
  destruct argv as [|script [|exe [|file [|scene rest]]]]; try (now left).
  destruct (path_exists exe); [| now left]. cbn [negb].
  destruct (path_exists (strip "'" (strip (ascii_of_nat 34) file)));
    [| now left]. cbn [negb].
  right. eexists.
  destruct (subprocess_call _) as [ret|e] eqn:Hc; cbn [calls exit_code];
    (split; [reflexivity | now rewrite Hc]).
Qed.

(** Run on the command that [submit_job.py] builds, the wrapper starts
    Blender on the very scene file, scene and executable of the
    submission, with compositing just when it was asked for, provided the
    files exist on the render node and the path neither begins nor ends
    with a quote character. *)
Theorem wrapper_rebuilds_submitted_scene :
  forall (submit_exists : string -> bool) (sys_executable : string)
         (args : SubmitArgs)
         (environ : string -> option string) (py_int : string -> Z + string)
         (path_exists : string -> bool)
         (subprocess_call : list string -> Z + string)
         (start_frame chunk_size : Z),
  unquotedEnds (arg_blend_file args) ->
  py_int (environ_get environ "CUE_IFRAME" "1") = inl start_frame ->
  py_int (environ_get environ "CUE_CHUNK" "1") = inl chunk_size ->
  path_exists (chooseBlender submit_exists args) = true ->
  path_exists (arg_blend_file args) = true ->
  calls (wrapperMain environ py_int path_exists subprocess_call
           (tl (submitCommand submit_exists sys_executable args))) =
  [wrapperCommand (chooseBlender submit_exists args) (arg_blend_file args)
     (arg_scene args) start_frame (start_frame + chunk_size - 1)
     (arg_use_compositing args)].
Proof.
  intros submit_exists sys_executable args environ py_int path_exists
         subprocess_call start chunk Hends Hs Hc Hexe Hfile.
  unfold wrapperMain, wrapperFrames, submitCommand. cbn [tl].
  rewrite Hs, Hc, (wrapper_undoes_quoting_aux (arg_blend_file args) Hends).
  rewrite Hexe, Hfile. cbn [negb].
  assert (Hflag :
    String.eqb (lower (if arg_use_compositing args then "true" else "false"))
      "true" = arg_use_compositing args).
  { destruct (arg_use_compositing args); reflexivity. }
  rewrite Hflag.
  destruct (subprocess_call _); reflexivity.
Qed.

Lemma wrapper_rebuilds_submitted_scene_witness :
  calls (wrapperMain sampleEnviron sampleInt sampleExists sampleCall
           (tl (submitCommand sampleExists "/usr/bin/python3" sampleArgs))) =
  [["/usr/bin/blender"; "-b"; "/shows/my show/scene.blend"; "-S"; "Scene";
    "-s"; "11"; "-e"; "15"; "--use-compositing"; "-a"]].
Proof.
  refine (wrapper_rebuilds_submitted_scene sampleExists "/usr/bin/python3"
            sampleArgs sampleEnviron sampleInt sampleExists sampleCall 11 5
            _ eq_refl eq_refl eq_refl eq_refl).
  split; intros c H; injection H as <-; reflexivity.
Defined.

(** When no executable is given, [submit_job.py] takes the first of its
    usual places that exists and falls back on [blender]; a given
    executable is kept as it is, and the choice is never empty. *)
Theorem chooseBlender_is_never_empty :
  forall (path_exists : string -> bool) (args : SubmitArgs),
  chooseBlender path_exists args <> EmptyString /\
  (arg_blender_exe args <> EmptyString ->
   chooseBlender path_exists args = arg_blender_exe args) /\
  (arg_blender_exe args = EmptyString ->
   In (chooseBlender path_exists args) common_paths) /\
  (arg_blender_exe args = EmptyString ->
   (forall path : string,
      In path common_paths -> path <> "blender" -> path_exists path = false) ->
   chooseBlender path_exists args = "blender").
Proof.
  intros path_exists args. unfold chooseBlender.
  destruct (String.eqb_spec (arg_blender_exe args) EmptyString) as [-> | Hne];
    cbn [negb].
  - unfold common_paths. cbn [first_existing].
    split; [| split; [congruence | split]].
    + repeat match goal with
             | |- context [if path_exists ?p then _ else _] =>
                 destruct (path_exists p)
             end; discriminate.
    + intros _.
      repeat match goal with
             | |- context [if path_exists ?p then _ else _] =>
                 destruct (path_exists p)
             end; simpl; tauto.
    + intros _ Hnone.
      rewrite (Hnone "C:\Program Files\Blender Foundation\Blender\blender.exe")
        by (simpl; tauto || discriminate).
      rewrite (Hnone "C:\blender\blender.exe")
        by (simpl; tauto || discriminate).
      destruct (path_exists "blender"); reflexivity.
  - repeat split; congruence.
Qed.

Lemma chooseBlender_is_never_empty_witness :
  chooseBlender sampleExists sampleArgs = "/usr/bin/blender".
Proof.
  refine (proj1 (proj2 (chooseBlender_is_never_empty sampleExists sampleArgs)) _).
  discriminate.
Defined.

(** The function [submit_job], called on parsed arguments, launches at
    most one outline, the one built from these arguments for the current
    user; its code, returned or given to [sys.exit], is 0 just when that
    launch went through, which needs the libraries, the scene file and
    the wrapper script to be there, and 1 in every other case, a failed
    launch included. What [main] does before the call, the parsing of the
    command line, is not part of it. *)
Theorem submit_job_outcome :
  forall (import_error : option string) (path_exists : string -> bool)
         (sys_executable : string) (getuser : string + string)
         (launch : RenderOutline -> unit + string) (args : SubmitArgs),
  let run :=
    submit_job import_error path_exists sys_executable getuser launch args in
  (exit_code run = 0%Z \/ exit_code run = 1%Z) /\
  (forall ol : RenderOutline,
     In ol (calls run) ->
     calls run = [ol] /\
     exists user : string,
       getuser = inl user /\
       ol = submitOutline path_exists sys_executable args user) /\
  (exit_code run = 0%Z <->
   import_error = None /\
   path_exists (arg_blend_file args) = true /\
   path_exists (arg_wrapper_script args) = true /\
   exists user : string,
     getuser = inl user /\
     launch (submitOutline path_exists sys_executable args user) = inl tt).
Proof.
  intros import_error path_exists sys_executable getuser launch args.
  unfold submit_job.
  destruct import_error as [e|].
  { cbn. repeat split; try tauto; try discriminate.
    intros (H & _). discriminate. }
  destruct (path_exists (arg_blend_file args)); cbn [negb].
  2: { cbn. repeat split; try tauto; try discriminate.
       intros (_ & H & _). discriminate. }
  destruct (path_exists (arg_wrapper_script args)); cbn [negb].
  2: { cbn. repeat split; try tauto; try discriminate.
       intros (_ & _ & H & _). discriminate. }
  destruct getuser as [user|e].
  2: { cbn. repeat split; try tauto; try discriminate.
       intros (_ & _ & _ & user & H & _). discriminate. }
  destruct (launch (submitOutline path_exists sys_executable args user))
    as [[]|e] eqn:Hl; cbn.
  - repeat split; try tauto.
    + destruct H as [<- | []]. reflexivity.
    + destruct H as [<- | []]. exists user. now split.
    + exists user. now split.
  - repeat split; try tauto; try discriminate.
    + destruct H as [<- | []]. reflexivity.
    + destruct H as [<- | []]. exists user. now split.
    + intros (_ & _ & _ & user' & Hu & Hl'). injection Hu as <-.
      rewrite Hl in Hl'. discriminate.
Qed.

Example submit_job_sample :
  exit_code (submit_job None sampleExists "/usr/bin/python3" (inl "artist")
               sampleRenderLaunch sampleArgs) = 0%Z /\
  map render_command
    (flat_map render_layers
       (calls (submit_job None sampleExists "/usr/bin/python3" (inl "artist")
                 sampleRenderLaunch sampleArgs))) =
  [["/usr/bin/python3"; "/opt/blender_wrapper.py"; "/usr/bin/blender";
    dquote +:+ "/shows/my show/scene.blend" +:+ dquote; "Scene"; "true"]].
Proof. split; reflexivity. Qed.

Example submit_job_failed_launch :
  exit_code (submit_job None sampleExists "/usr/bin/python3" (inl "artist")
               (fun _ => inr "connection refused") sampleArgs) = 1%Z.
Proof. reflexivity. Qed.

Lemma submit_job_outcome_witness :
  exit_code (submit_job None sampleExists "/usr/bin/python3" (inl "artist")
               sampleRenderLaunch sampleArgs) = 0%Z.
Proof.
  refine (proj2 (proj2 (proj2 (submit_job_outcome None sampleExists
                   "/usr/bin/python3" (inl "artist") sampleRenderLaunch
                   sampleArgs))) _).
  repeat split. exists "artist". split; reflexivity.
Defined.

Lemma command_kind_follows_type_witness :
  mem (layerType shellQuoted) (FROM_CONFIG_FILE sampleJobTypes) = false /\
  (layerType shellQuoted = MAYA sampleJobTypes \/
   layerType shellQuoted = SHELL sampleJobTypes \/
   layerType shellQuoted = NUKE sampleJobTypes \/
   layerType shellQuoted = BLENDER sampleJobTypes).
Proof.
  exact (proj2 (command_kind_follows_type sampleConstants sampleJobTypes
                  shellQuoted false)
           [PyStr "my app"; PyStr "--flag"; PyStr "value with space"] eq_refl).
Defined.
